(** * UMKM Food Commerce API: order creation, catalog seeding and listing

    A shallow embedding of [src/main.py] and [src/schemas.py].

    - Python [float] is IEEE 754 binary64, taken here as [spec_float] at
      precision 53 and maximal exponent 1024, with the arithmetic of
      [SpecFloat] (round to nearest, ties to even).
    - Python [int] is [Z]; [str] is [string].
    - The module-level [db] handle and the MongoDB collections behind it are
      an explicit [World] threaded through a state-and-exception monad; an
      exception leaves the store as it was when the exception was raised.
    - Every call that reaches the store is appended to [calls], so that
      "no store interaction" is a statement about the world. *)

From Stdlib Require Import ZArith NArith List String Ascii Bool Lia.
From Stdlib Require Import Floats.SpecFloat.
Import ListNotations.

Local Open Scope string_scope.
Local Open Scope list_scope.
Local Open Scope Z_scope.

(* ================================================================== *)
(** ** Python floats *)
(* ================================================================== *)

Module PyFloat.

Definition prec : Z := 53.
Definition emax : Z := 1024.

Definition float : Type := spec_float.

Definition zero : float := S754_zero false.

Definition add : float -> float -> float := SFadd prec emax.
Definition mul : float -> float -> float := SFmul prec emax.
Definition div : float -> float -> float := SFdiv prec emax.

(** [x >= y] on floats; false as soon as one side is a NaN. *)
Definition ge (x y : float) : bool := SFleb y x.

(** The nearest binary64 to an integer, ties to even; an integer beyond the
    largest finite float rounds to an infinity. *)
Definition of_Z (z : Z) : float := binary_normalize prec emax z 0 false.

(** [float(n)] for an [int] [n], and the implicit conversion of the [int]
    operand of a mixed [float * int]: [None] stands for [OverflowError]
    ("int too large to convert to float"). *)
Definition of_int (z : Z) : option float :=
  match of_Z z with
  | S754_infinity _ => None
  | f => Some f
  end.

(** Nearest integer to [a / b] for [b > 0], ties to the even integer. *)
Definition div_half_even (a b : Z) : Z :=
  let q := a / b in
  let r := a mod b in
  match 2 * r ?= b with
  | Lt => q
  | Gt => q + 1
  | Eq => if Z.even q then q else q + 1
  end.

(** [round(x, 2)]: the exact value of [x] is rounded to the nearest multiple
    of 1/100, ties to even, and that decimal is converted back to the
    nearest float.  A float with a non-negative exponent is an integer and
    rounds to itself, as do zeros, infinities and NaN; the sign of [x] is
    kept when the result is zero. *)
Definition round2 (x : float) : float :=
  match x with
  | S754_finite s m e =>
      if 0 <=? e then x
      else
        match div_half_even (100 * Zpos m) (2 ^ (- e)) with
        | Zpos n => div (S754_finite s n 0) (S754_finite false 100 0)
        | _ => S754_zero s
        end
  | _ => x
  end.

(** A decimal literal [n / 10^k] of the source, as the nearest float. *)
Definition decimal (n : Z) (k : Z) : float := div (of_Z n) (of_Z (10 ^ k)).

End PyFloat.

(* ================================================================== *)
(** ** Exceptions and the handler monad *)
(* ================================================================== *)

(** The exceptions the handlers can raise or let through. *)
Inductive exn : Type :=
| HTTPException (status_code : Z) (detail : string)
| RequestValidationError            (* FastAPI: the body fails its model *)
| InvalidId (oid : string)          (* bson.errors.InvalidId *)
| ValidationError (model : string)  (* pydantic, raised by a constructor *)
| OverflowError                     (* int too large to convert to float *)
| TypeError (msg : string)
| PyMongoError (msg : string)       (* the store failed *)
| RegexNotInterpreted.              (* a $regex outside the fragment of [Regex] *)

(** [str(e)]. *)
Definition str_exn (e : exn) : string :=
  match e with
  | HTTPException _ d => d
  | RequestValidationError => "request validation error"
  | InvalidId s => "'" ++ s ++ "' is not a valid ObjectId, it must be a 12-byte input or a 24-character hex string"
  | ValidationError m => "validation error for " ++ m
  | OverflowError => "int too large to convert to float"
  | TypeError m => m
  | PyMongoError m => m
  | RegexNotInterpreted => "regular expression not interpreted"
  end.

(** The status FastAPI answers with: an [HTTPException] carries its own, a
    body that fails validation is a 422, anything else that escapes a
    handler is a 500. *)
Definition http_status (e : exn) : Z :=
  match e with
  | HTTPException s _ => s
  | RequestValidationError => 422
  | _ => 500
  end.

Inductive Result (A : Type) : Type :=
| Ret (a : A)
| Raise (e : exn).

Arguments Ret {A} a.
Arguments Raise {A} e.

Section Monad.

Variable W : Type.

Definition M (A : Type) : Type := W -> Result A * W.

Definition ret {A} (a : A) : M A := fun w => (Ret a, w).

Definition raise {A} (e : exn) : M A := fun w => (Raise e, w).

Definition bind {A B} (m : M A) (k : A -> M B) : M B :=
  fun w =>
    match m w with
    | (Ret a, w') => k a w'
    | (Raise e, w') => (Raise e, w')
    end.

(** [try: m  except Exception as e: h e]. *)
Definition try_except {A} (m : M A) (h : exn -> M A) : M A :=
  fun w =>
    match m w with
    | (Ret a, w') => (Ret a, w')
    | (Raise e, w') => h e w'
    end.

(** A pure computation that may raise. *)
Definition lift {A} (r : Result A) : M A := fun w => (r, w).

End Monad.

Arguments ret {W A} a.
Arguments raise {W A} e.
Arguments bind {W A B} m k.
Arguments try_except {W A} m h.
Arguments lift {W A} r.

Declare Scope py_scope.
Delimit Scope py_scope with py.
Notation "x <- m ;; k" := (bind m (fun x => k))
  (at level 61, m at next level, right associativity) : py_scope.
Notation "m ;;; k" := (bind m (fun _ => k))
  (at level 61, right associativity) : py_scope.

(* ================================================================== *)
(** ** Strings *)
(* ================================================================== *)

(** Strings are byte strings of ASCII text; letter case is the case of the
    ASCII letters. *)

Definition in_range (lo hi c : ascii) : bool :=
  ((N_of_ascii lo <=? N_of_ascii c) && (N_of_ascii c <=? N_of_ascii hi))%N.

Definition is_upper (c : ascii) : bool := in_range "A" "Z" c.

Definition lower (c : ascii) : ascii :=
  if is_upper c then ascii_of_N (N_of_ascii c + 32) else c.

Fixpoint lower_string (s : string) : string :=
  match s with
  | EmptyString => EmptyString
  | String c s' => String (lower c) (lower_string s')
  end.

Fixpoint forallb_string (f : ascii -> bool) (s : string) : bool :=
  match s with
  | EmptyString => true
  | String c s' => f c && forallb_string f s'
  end.

(** Python truthiness of a [str]: the empty string is falsy. *)
Definition truthy (s : string) : bool :=
  match s with
  | EmptyString => false
  | String _ _ => true
  end.

(* ================================================================== *)
(** ** ObjectId *)
(* ================================================================== *)

(** A [bson.ObjectId] is twelve bytes; it is kept here as its canonical
    rendering, the 24 lower-case hexadecimal digits that [str] prints. *)
Inductive ObjectId : Type := Oid (hex : string).

(** [str(oid)]. *)
Definition str_oid (o : ObjectId) : string :=
  match o with Oid h => h end.

Definition oid_eqb (a b : ObjectId) : bool :=
  String.eqb (str_oid a) (str_oid b).

Definition is_hex (c : ascii) : bool :=
  in_range "0" "9" c || in_range "a" "f" c || in_range "A" "F" c.

(** [ObjectId(s)] for a [str] [s]: 24 hexadecimal digits of either case, or
    [InvalidId]. *)
Definition ObjectId_of_str (s : string) : Result ObjectId :=
  if (Nat.eqb (String.length s) 24 && forallb_string is_hex s)%bool
  then Ret (Oid (lower_string s))
  else Raise (InvalidId s).

Definition hex_digit (d : N) : ascii :=
  match d with
  | 0 => "0" | 1 => "1" | 2 => "2" | 3 => "3" | 4 => "4" | 5 => "5"
  | 6 => "6" | 7 => "7" | 8 => "8" | 9 => "9" | 10 => "a" | 11 => "b"
  | 12 => "c" | 13 => "d" | 14 => "e" | _ => "f"
  end%N%char.

Fixpoint hex_of_N (digits : nat) (n : N) : string :=
  match digits with
  | O => EmptyString
  | S k => hex_of_N k (n / 16)%N ++ String (hex_digit (n mod 16)%N) EmptyString
  end.

(** The identifier the store mints for its [n]-th insertion.  Real
    identifiers are opaque; only their being store-assigned matters. *)
Definition mint (n : N) : ObjectId := Oid (hex_of_N 24 n).

(* ================================================================== *)
(** ** Product documents *)
(* ================================================================== *)

(** A BSON number as Python reads it back. *)
Inductive number : Type :=
| NInt (z : Z)
| NFloat (f : PyFloat.float).

(** A document of the [product] collection, as a [dict]: a field is either
    absent ([None] here, what [dict.get] answers) or holds a value of the
    type [schemas.Product] declares for it. *)
Module Doc.
Record t : Type := mk {
  name : option string;
  description : option string;
  price : option number;
  category : option string;
  image : option string;
  vendor : option string;
  rating : option PyFloat.float;
  tags : list string;
  in_stock : bool
}.
End Doc.

(** A stored document: the body and the [_id] the store assigned. *)
Record Stored : Type := { _id : ObjectId; doc : Doc.t }.

(** An element of a listing: the body, and [_id] rendered as a [str] when
    the document came from the store. *)
Record Item : Type := { item_id : option string; item : Doc.t }.

(** The strings a query on [field] looks at; an array field offers each of
    its elements. *)
Definition field_values (field : string) (p : Doc.t) : list string :=
  let opt (o : option string) := match o with Some s => [s] | None => [] end in
  if String.eqb field "name" then opt (Doc.name p)
  else if String.eqb field "description" then opt (Doc.description p)
  else if String.eqb field "category" then opt (Doc.category p)
  else if String.eqb field "image" then opt (Doc.image p)
  else if String.eqb field "vendor" then opt (Doc.vendor p)
  else if String.eqb field "tags" then Doc.tags p
  else [].

(* ================================================================== *)
(** ** Regular expressions of a query *)
(* ================================================================== *)

(** The store matches [$regex] with PCRE.  The fragment interpreted here is
    the patterns made of literal characters and [.]; a pattern that holds
    any other metacharacter is not given a meaning ([compile] answers
    [None]). *)
Module Regex.

Inductive atom : Type :=
| Lit (c : ascii)
| AnyChar.

Definition is_meta (c : ascii) : bool :=
  existsb (Ascii.eqb c)
    ["\"; "^"; "$"; "."; "|"; "?"; "*"; "+"; "("; ")"; "["; "]"; "{"; "}"]%char.

Fixpoint compile (pattern : string) : option (list atom) :=
  match pattern with
  | EmptyString => Some []
  | String c rest =>
      match compile rest with
      | None => None
      | Some r =>
          if Ascii.eqb c "." then Some (AnyChar :: r)
          else if is_meta c then None
          else Some (Lit c :: r)
      end
  end.

(** One atom against one character; [.] matches all but a line feed. *)
Definition atom_match (caseless : bool) (a : atom) (x : ascii) : bool :=
  match a with
  | Lit c => if caseless then Ascii.eqb (lower c) (lower x) else Ascii.eqb c x
  | AnyChar => negb (Ascii.eqb x "010")
  end.

(** The atoms match a prefix of the subject. *)
Fixpoint match_here (caseless : bool) (r : list atom) (s : string) : bool :=
  match r, s with
  | [], _ => true
  | _ :: _, EmptyString => false
  | a :: r', String x s' => atom_match caseless a x && match_here caseless r' s'
  end.

(** Unanchored search: the atoms match somewhere in the subject. *)
Fixpoint search (caseless : bool) (r : list atom) (s : string) : bool :=
  match_here caseless r s ||
  match s with
  | EmptyString => false
  | String _ s' => search caseless r s'
  end.

(** The [i] flag of [$options]. *)
Definition caseless (options : string) : bool :=
  negb (forallb_string (fun c => negb (Ascii.eqb c "i")) options).

End Regex.

(* ================================================================== *)
(** ** Queries *)
(* ================================================================== *)

(** The filter documents the handlers build. *)
Inductive Cond : Type :=
| FieldIs (field value : string)               (* {field: value} *)
| FieldRegex (field pattern options : string). (* {field: {"$regex": .., "$options": ..}} *)

Inductive Entry : Type :=
| Must (c : Cond)            (* "field": .. *)
| AnyOf (cs : list Cond).    (* "$or": [..] *)

(** A filter [dict]: every entry has to hold. *)
Definition Filter : Type := list Entry.

Definition cond_interpreted (c : Cond) : bool :=
  match c with
  | FieldIs _ _ => true
  | FieldRegex _ pattern _ =>
      match Regex.compile pattern with Some _ => true | None => false end
  end.

Definition entry_interpreted (e : Entry) : bool :=
  match e with
  | Must c => cond_interpreted c
  | AnyOf cs => forallb cond_interpreted cs
  end.

Definition cond_matches (c : Cond) (p : Doc.t) : bool :=
  match c with
  | FieldIs field value => existsb (String.eqb value) (field_values field p)
  | FieldRegex field pattern options =>
      match Regex.compile pattern with
      | Some r => existsb (Regex.search (Regex.caseless options) r) (field_values field p)
      | None => false
      end
  end.

Definition entry_matches (e : Entry) (p : Doc.t) : bool :=
  match e with
  | Must c => cond_matches c p
  | AnyOf cs => existsb (fun c => cond_matches c p) cs
  end.

Definition filter_matches (f : Filter) (p : Doc.t) : bool :=
  forallb (fun e => entry_matches e p) f.

(* ================================================================== *)
(** ** Schemas ([schemas.py] and the request models of [main.py]) *)
(* ================================================================== *)

Module OrderItem.
Record t : Type := mk {
  product_id : string;
  name : string;
  price : PyFloat.float;
  quantity : Z
}.
End OrderItem.

(** [OrderItem(product_id=.., name=.., price=.., quantity=..)]: [name] has
    to be a [str], [price] is [ge=0] and [quantity] is [ge=1]. *)
Definition OrderItemSchema (product_id : string) (name : option string)
    (price : PyFloat.float) (quantity : Z) : Result OrderItem.t :=
  match name with
  | None => Raise (ValidationError "OrderItem")
  | Some n =>
      if (PyFloat.ge price PyFloat.zero && (1 <=? quantity))%bool
      then Ret (OrderItem.mk product_id n price quantity)
      else Raise (ValidationError "OrderItem")
  end.

Module Order.
Record t : Type := mk {
  customer_name : option string;
  customer_phone : option string;
  customer_address : option string;
  items : list OrderItem.t;
  subtotal : PyFloat.float;
  notes : option string
}.
End Order.

(** [Order(..)]: [subtotal] is [ge=0]. *)
Definition OrderSchema (customer_name customer_phone customer_address : option string)
    (items : list OrderItem.t) (subtotal : PyFloat.float) (notes : option string)
    : Result Order.t :=
  if PyFloat.ge subtotal PyFloat.zero
  then Ret (Order.mk customer_name customer_phone customer_address items subtotal notes)
  else Raise (ValidationError "Order").

Module CreateOrderItem.
Record t : Type := mk {
  product_id : string;
  quantity : Z
}.

(** [quantity: int = Field(..., ge=1)]. *)
Definition valid (line : t) : bool := 1 <=? quantity line.
End CreateOrderItem.

Module CreateOrderRequest.
Record t : Type := mk {
  customer_name : option string;
  customer_phone : option string;
  customer_address : option string;
  items : list CreateOrderItem.t;
  notes : option string
}.

Definition valid (payload : t) : bool :=
  forallb CreateOrderItem.valid (items payload).
End CreateOrderRequest.

(* ================================================================== *)
(** ** The store *)
(* ================================================================== *)

(** The calls that reach the store. *)
Inductive StoreCall : Type :=
| CountDocuments    (* db["product"].count_documents({}) *)
| InsertMany        (* db["product"].insert_many(..) *)
| Find              (* db["product"].find(..) *)
| FindOne           (* db["product"].find_one(..) *)
| CreateDocument.   (* create_document("order", ..) *)

Record StoredOrder : Type := { order_id : ObjectId; order_doc : Order.t }.

(** The database behind [db]: the two collections, the counter identifiers
    are minted from, and the calls that currently fail, each with the
    message of its error. *)
Record Database : Type := {
  product : list Stored;
  order : list StoredOrder;
  next_id : N;
  outage : StoreCall -> option string
}.

(** [db] is [None] when no database is configured. *)
Record World : Type := {
  db : option Database;
  calls : list StoreCall
}.

Definition with_product (d : Database) (ps : list Stored) (n : N) : Database :=
  {| product := ps; order := order d; next_id := n; outage := outage d |}.

Definition with_order (d : Database) (os : list StoredOrder) (n : N) : Database :=
  {| product := product d; order := os; next_id := n; outage := outage d |}.

Local Open Scope py_scope.

(** A call to the store: it is recorded, fails when the store has an outage
    for it, and otherwise runs against the database. *)
Definition store_call {A} (c : StoreCall) (f : Database -> Result A * Database)
    : M World A :=
  fun w =>
    match db w with
    | None => (Raise (TypeError "'NoneType' object is not subscriptable"), w)
    | Some d =>
        let log := calls w ++ [c] in
        match outage d c with
        | Some msg => (Raise (PyMongoError msg), {| db := Some d; calls := log |})
        | None =>
            let (r, d') := f d in
            (r, {| db := Some d'; calls := log |})
        end
    end.

(** [db is None]. *)
Definition db_is_None : M World bool :=
  fun w => (Ret (match db w with None => true | Some _ => false end), w).

Definition count_documents : M World Z :=
  store_call CountDocuments (fun d => (Ret (Z.of_nat (List.length (product d))), d)).

Fixpoint assign_ids (n : N) (docs : list Doc.t) : list Stored :=
  match docs with
  | [] => []
  | p :: rest => {| _id := mint n; doc := p |} :: assign_ids (n + 1) rest
  end.

Definition insert_many (docs : list Doc.t) : M World unit :=
  store_call InsertMany (fun d =>
    (Ret tt,
     with_product d (product d ++ assign_ids (next_id d) docs)
                    (next_id d + N.of_nat (List.length docs)))).

Definition find (f : Filter) : M World (list Stored) :=
  store_call Find (fun d =>
    if forallb entry_interpreted f
    then (Ret (filter (fun s => filter_matches f (doc s)) (product d)), d)
    else (Raise RegexNotInterpreted, d)).

(** [find_one({"_id": oid})]: the first document with that identifier. *)
Definition find_one (oid : ObjectId) : M World (option Stored) :=
  store_call FindOne (fun d =>
    (Ret (List.find (fun s => oid_eqb (_id s) oid) (product d)), d)).

(** Modelled from the spec: [database.create_document], which is imported
    by [main.py] and not part of the sources.  Section 4.4: a single insert
    of the full order document, which returns the store-assigned identifier
    (a string, section 6) and fails with the storage error when the write
    fails. *)
Definition create_document (order_doc : Order.t) : M World string :=
  store_call CreateDocument (fun d =>
    let oid := mint (next_id d) in
    (Ret (str_oid oid),
     with_order d (order d ++ [{| order_id := oid; order_doc := order_doc |}])
                  (next_id d + 1))).

(* ================================================================== *)
(** ** [main.py] *)
(* ================================================================== *)

(** *** Seeding *)

Definition sample_products : list Doc.t :=
  [ Doc.mk (Some "Strawberry Bubble Tea")
      (Some "Refreshing strawberry milk tea with chewy tapioca pearls.")
      (Some (NInt 18000))
      (Some "Drinks")
      (Some "https://images.unsplash.com/photo-1613478223719-2ab802602423?q=80&w=1200&auto=format&fit=crop")
      (Some "Boba Bliss UMKM")
      (Some (PyFloat.decimal 47 1))
      ["boba"; "strawberry"; "sweet"]
      true;
    Doc.mk (Some "Classic Milk Tea")
      (Some "Smooth black tea with creamy milk and brown sugar pearls.")
      (Some (NInt 16000))
      (Some "Drinks")
      (Some "https://images.unsplash.com/photo-1592861956120-e524fc739696?q=80&w=1200&auto=format&fit=crop")
      (Some "Kopi & Teh Lokal")
      (Some (PyFloat.decimal 46 1))
      ["boba"; "milk tea"]
      true;
    Doc.mk (Some "Spicy Chicken Skewers")
      (Some "Grilled chicken satay with homemade spicy sauce.")
      (Some (NInt 22000))
      (Some "Snacks")
      (Some "https://images.unsplash.com/photo-1666001085700-0610a7f0b11d?q=80&w=1200&auto=format&fit=crop")
      (Some "Satay UMKM")
      (Some (PyFloat.decimal 44 1))
      ["spicy"; "protein"]
      true;
    Doc.mk (Some "Chocolate Banana Crepes")
      (Some "Soft crepes filled with banana and chocolate drizzle.")
      (Some (NInt 15000))
      (Some "Dessert")
      (Some "https://images.unsplash.com/photo-1541599188778-cdc73298e8f8?q=80&w=1200&auto=format&fit=crop")
      (Some "Manis Lokal")
      (Some (PyFloat.decimal 48 1))
      ["dessert"; "sweet"]
      true ].

Definition seed_products_if_empty : M World unit :=
  none <- db_is_None ;;
  if (none : bool) then ret tt
  else
    count <- count_documents ;;
    if 0 <? count then ret tt
    else insert_many sample_products.

(** *** Listing *)

Definition fallback : list Item :=
  [ {| item_id := None;
       item := Doc.mk (Some "Sample Bubble Tea") (Some "Example product")
                 (Some (NInt 15000)) (Some "Drinks") None (Some "UMKM Sample")
                 (Some (PyFloat.decimal 45 1)) ["sample"] true |} ].

(** [it["_id"] = str(it["_id"])]. *)
Definition serialize (s : Stored) : Item :=
  {| item_id := Some (str_oid (_id s)); item := doc s |}.

Definition filter_dict_of (category q : option string) : Filter :=
  let filter_dict : Filter := [] in
  let filter_dict :=
    match category with
    | Some c => if truthy c then filter_dict ++ [Must (FieldIs "category" c)] else filter_dict
    | None => filter_dict
    end in
  match q with
  | Some q' =>
      if truthy q'
      then filter_dict ++
           [AnyOf [ FieldRegex "name" q' "i";
                    FieldRegex "description" q' "i";
                    FieldRegex "tags" q' "i" ]]
      else filter_dict
  | None => filter_dict
  end.

Definition list_products (category q : option string) : M World (list Item) :=
  none <- db_is_None ;;
  if (none : bool) then ret fallback
  else
    seed_products_if_empty ;;;
    items <- find (filter_dict_of category q) ;;
    ret (map serialize items).

(** *** Orders *)

(** [float(v)] for the value of a [price] field. *)
Definition float_of_number (v : number) : Result PyFloat.float :=
  match v with
  | NInt z =>
      match PyFloat.of_int z with
      | Some f => Ret f
      | None => Raise OverflowError
      end
  | NFloat f => Ret f
  end.

(** [x * n] for a [float] [x] and an [int] [n]. *)
Definition mul_int (x : PyFloat.float) (n : Z) : Result PyFloat.float :=
  match PyFloat.of_int n with
  | Some f => Ret (PyFloat.mul x f)
  | None => Raise OverflowError
  end.

(** Lines 182-184: the product a line refers to, or [None]. *)
Definition lookup_product (product_id : string) : M World (option Stored) :=
  none <- db_is_None ;;
  if (none : bool) then ret None
  else if truthy product_id then
    oid <- lift (ObjectId_of_str product_id) ;;
    find_one oid
  else ret None.

(** The body of the [for] loop, on the running [order_items] and
    [subtotal]. *)
Definition create_order_line (line : CreateOrderItem.t)
    (order_items : list OrderItem.t) (subtotal : PyFloat.float)
    : M World (list OrderItem.t * PyFloat.float) :=
  prod <- lookup_product (CreateOrderItem.product_id line) ;;
  match prod with
  | None =>
      raise (HTTPException 404
               ("Product not found: " ++ CreateOrderItem.product_id line))
  | Some prod =>
      let name := Doc.name (doc prod) in
      price <- lift (float_of_number
                       (match Doc.price (doc prod) with
                        | Some v => v
                        | None => NInt 0
                        end)) ;;
      let quantity := CreateOrderItem.quantity line in
      line_total <- lift (mul_int price quantity) ;;
      let subtotal := PyFloat.add subtotal line_total in
      it <- lift (OrderItemSchema (str_oid (_id prod)) name price quantity) ;;
      ret (order_items ++ [it], subtotal)
  end.

Fixpoint create_order_loop (lines : list CreateOrderItem.t)
    (order_items : list OrderItem.t) (subtotal : PyFloat.float)
    : M World (list OrderItem.t * PyFloat.float) :=
  match lines with
  | [] => ret (order_items, subtotal)
  | line :: rest =>
      st <- create_order_line line order_items subtotal ;;
      create_order_loop rest (fst st) (snd st)
  end.

Record OrderCreated : Type := { message : string; created_id : string }.

Definition create_order (payload : CreateOrderRequest.t) : M World OrderCreated :=
  match CreateOrderRequest.items payload with
  | [] => raise (HTTPException 400 "No items provided")
  | _ :: _ =>
      st <- create_order_loop (CreateOrderRequest.items payload) [] PyFloat.zero ;;
      order_doc <- lift (OrderSchema
                           (CreateOrderRequest.customer_name payload)
                           (CreateOrderRequest.customer_phone payload)
                           (CreateOrderRequest.customer_address payload)
                           (fst st)
                           (PyFloat.round2 (snd st))
                           (CreateOrderRequest.notes payload)) ;;
      order_id <- try_except (create_document order_doc)
                    (fun e => raise (HTTPException 500
                                       ("Failed to create order: " ++ str_exn e))) ;;
      ret {| message := "Order created"; created_id := order_id |}
  end.

(** [POST /api/orders]: FastAPI checks the body against
    [CreateOrderRequest] before it calls the handler. *)
Definition post_api_orders (body : CreateOrderRequest.t) : M World OrderCreated :=
  if CreateOrderRequest.valid body then create_order body
  else raise RequestValidationError.

(* ================================================================== *)
(** ** Vocabulary of the statements *)
(* ================================================================== *)

(** The sign a float carries; a NaN carries none. *)
Definition sign_is (s : bool) (x : PyFloat.float) : Prop :=
  match x with
  | S754_zero s' | S754_infinity s' | S754_finite s' _ _ => s' = s
  | S754_nan => False
  end.

Definition nonzero (x : PyFloat.float) : Prop :=
  match x with
  | S754_zero _ => False
  | _ => True
  end.

(** [x >= 0.0], the test behind [ge=0]. *)
Definition nonneg (x : PyFloat.float) : Prop :=
  PyFloat.ge x PyFloat.zero = true.

(** The product a reference resolves to in a database: the reference is a
    non-empty, well-formed identifier and a document is stored under it. *)
Definition resolves (d : Database) (product_id : string) : option Stored :=
  if truthy product_id then
    match ObjectId_of_str product_id with
    | Ret oid => List.find (fun s => oid_eqb (_id s) oid) (product d)
    | Raise _ => None
    end
  else None.

(** The price an order reads off a document: [float(prod.get("price", 0))]. *)
Definition snapshot_price (p : Doc.t) : Result PyFloat.float :=
  float_of_number (match Doc.price p with Some v => v | None => NInt 0 end).

(** What [schemas.Product] promises of the fields an order reads: the name
    is a string and the price, when there is one, is a non-negative
    number. *)
Definition sellable (p : Doc.t) : Prop :=
  Doc.name p <> None /\
  exists price, snapshot_price p = Ret price /\ nonneg price.

(** A line of a request that the store can serve: its quantity passed the
    request model ([ge=1]) and converts to a float, and its reference
    resolves to a sellable product. *)
Definition orderable (d : Database) (line : CreateOrderItem.t) : Prop :=
  1 <= CreateOrderItem.quantity line /\
  PyFloat.of_int (CreateOrderItem.quantity line) <> None /\
  exists s, resolves d (CreateOrderItem.product_id line) = Some s /\ sellable (doc s).

(** An order item is the snapshot of the product its line resolves to: the
    stored identifier, the product's name and price as they are in the
    store, and the quantity of the line. *)
Definition snapshot_of (d : Database) (line : CreateOrderItem.t) (it : OrderItem.t) : Prop :=
  exists s,
    resolves d (CreateOrderItem.product_id line) = Some s /\
    OrderItem.product_id it = str_oid (_id s) /\
    Doc.name (doc s) = Some (OrderItem.name it) /\
    snapshot_price (doc s) = Ret (OrderItem.price it) /\
    OrderItem.quantity it = CreateOrderItem.quantity line.

(** [price * quantity] of one item, and the running sum of the loop: the
    line totals added from [0.0] on, in the order of the items. *)
Definition line_total (it : OrderItem.t) : PyFloat.float :=
  PyFloat.mul (OrderItem.price it) (PyFloat.of_Z (OrderItem.quantity it)).

Definition add_line (acc : PyFloat.float) (it : OrderItem.t) : PyFloat.float :=
  PyFloat.add acc (line_total it).

Definition sum_lines (items : list OrderItem.t) : PyFloat.float :=
  fold_left add_line items PyFloat.zero.


(** The calls a request makes that reach the store: what it appended to the
    log. *)
Definition new_calls (before after : World) (cs : list StoreCall) : Prop :=
  calls after = calls before ++ cs.

(** The orders a world holds. *)
Definition orders_of (w : World) : list StoredOrder :=
  match db w with
  | Some d => order d
  | None => []
  end.

(** [q] occurs in [s] as a substring, letter case aside. *)
Definition occurs_in (q s : string) : Prop :=
  exists before after,
    lower_string s = (before ++ lower_string q ++ after)%string.

(** The spec's search: [q] occurs in the name, in the description or in at
    least one tag. *)
Definition matches_query (q : string) (p : Doc.t) : Prop :=
  (exists n, Doc.name p = Some n /\ occurs_in q n) \/
  (exists t, Doc.description p = Some t /\ occurs_in q t) \/
  (exists t, In t (Doc.tags p) /\ occurs_in q t).

(** Executable counterparts. *)
Fixpoint prefixb (p s : string) : bool :=
  match p, s with
  | EmptyString, _ => true
  | String _ _, EmptyString => false
  | String a p', String b s' => Ascii.eqb a b && prefixb p' s'
  end.

Fixpoint substringb (p s : string) : bool :=
  prefixb p s ||
  match s with
  | EmptyString => false
  | String _ s' => substringb p s'
  end.

Definition occurs_inb (q s : string) : bool :=
  substringb (lower_string q) (lower_string s).

Definition matches_queryb (q : string) (p : Doc.t) : bool :=
  match Doc.name p with Some n => occurs_inb q n | None => false end ||
  match Doc.description p with Some t => occurs_inb q t | None => false end ||
  existsb (occurs_inb q) (Doc.tags p).

(** A query without regular-expression metacharacters. *)
Definition literal (q : string) : Prop :=
  forallb_string (fun c => negb (Regex.is_meta c)) q = true.

(** The atoms of a query without metacharacters: its characters. *)
Definition literals (q : string) : list Regex.atom :=
  map Regex.Lit (list_ascii_of_string q).

(* ================================================================== *)
(** ** Sample worlds *)
(* ================================================================== *)

(** A configured, empty database in which every call succeeds. *)
Definition empty_database : Database :=
  {| product := []; order := []; next_id := 0; outage := fun _ => None |}.

Definition fresh_world : World := {| db := Some empty_database; calls := [] |}.

(** The world after the first listing: the four sample products, stored
    under the identifiers 0 to 3. *)
Definition seeded_database : Database :=
  with_product empty_database (assign_ids 0 sample_products) 4.

Definition seeded_world : World :=
  {| db := Some seeded_database; calls := [CountDocuments; InsertMany] |}.

(** The same catalog behind a store whose [count_documents] fails. *)
Definition failing_count (c : StoreCall) : option string :=
  match c with
  | CountDocuments => Some "connection refused"
  | _ => None
  end.

Definition unreachable_world : World :=
  {| db := Some {| product := product seeded_database;
                   order := [];
                   next_id := 4;
                   outage := failing_count |};
     calls := [] |}.

(** A catalog of one document that has a name and no price. *)
Definition free_sample : Doc.t :=
  Doc.mk (Some "Free Sample") None None (Some "Snacks") None None None [] true.



(** No database configured. *)
Definition unconfigured_world : World := {| db := None; calls := [] |}.

Definition request (lines : list CreateOrderItem.t) : CreateOrderRequest.t :=
  CreateOrderRequest.mk None None None lines None.

(** The identifiers of the first and of the last sample product. *)
Definition strawberry_id : string := "000000000000000000000000".
Definition crepes_id : string := "000000000000000000000003".

(* ================================================================== *)
(** ** More of [main.py]: the categories *)
(* ================================================================== *)

(** The values of the [category] field, in stored order; a document
    without the field offers none. *)
Definition categories_of (ps : list Stored) : list string :=
  flat_map (fun s => match Doc.category (doc s) with
                     | Some c => [c]
                     | None => []
                     end) ps.

(** Each value once.  The store does not promise an order; the first
    occurrences are kept here, and no statement depends on it. *)
Fixpoint distinct_values (xs : list string) : list string :=
  match xs with
  | [] => []
  | x :: rest => x :: filter (fun y => negb (String.eqb x y)) (distinct_values rest)
  end.

(** [db["product"].distinct("category")].  This call is not among
    [StoreCall]: whether the store answers it is given from outside,
    [failure] being the message of the error it raises, and the log of
    calls is left as it is. *)
Definition distinct_category (failure : option string) : M World (list string) :=
  fun w =>
    match db w with
    | None => (Raise (TypeError "'NoneType' object is not subscriptable"), w)
    | Some d =>
        match failure with
        | Some msg => (Raise (PyMongoError msg), w)
        | None => (Ret (distinct_values (categories_of (product d))), w)
        end
    end.

Definition list_categories (failure : option string) : M World (list string) :=
  (none <- db_is_None ;;
   if (none : bool) then ret ["Drinks"; "Snacks"; "Dessert"]
   else
     seed_products_if_empty ;;;
     cats <- distinct_category failure ;;
     ret cats)%py.

(* ================================================================== *)
(** ** More of [schemas.py]: the product model *)
(* ================================================================== *)

Module Product.
Record t : Type := mk {
  name : string;
  description : option string;
  price : PyFloat.float;
  category : string;
  image : option string;
  vendor : option string;
  rating : option PyFloat.float;
  tags : list string;
  in_stock : bool
}.
End Product.

(** The [Product] model applied to the fields of a document: [name], [price] and [category] are required,
    [price] is [ge=0] after its conversion to a float, a [rating] that is
    given lies between 0 and 5 and a missing one is the default 4.5. *)
Definition ProductSchema (p : Doc.t) : Result Product.t :=
  match Doc.name p, Doc.price p, Doc.category p with
  | Some n, Some v, Some c =>
      match float_of_number v with
      | Ret price =>
          let rating_ok :=
            match Doc.rating p with
            | Some r => (PyFloat.ge r PyFloat.zero && PyFloat.ge (PyFloat.of_Z 5) r)%bool
            | None => true
            end in
          if (PyFloat.ge price PyFloat.zero && rating_ok)%bool
          then Ret (Product.mk n (Doc.description p) price c (Doc.image p) (Doc.vendor p)
                      (match Doc.rating p with
                       | Some r => Some r
                       | None => Some (PyFloat.decimal 45 1)
                       end)
                      (Doc.tags p) (Doc.in_stock p))
          else Raise (ValidationError "Product")
      | Raise _ => Raise (ValidationError "Product")
      end
  | _, _, _ => Raise (ValidationError "Product")
  end.

(* ================================================================== *)
(** ** More vocabulary *)
(* ================================================================== *)

(** The products a world holds. *)
Definition products_of (w : World) : list Stored :=
  match db w with
  | Some d => product d
  | None => []
  end.

(** What [schemas.OrderItem] and [schemas.Order] ask of a stored order, and
    what the handler adds: at least one item, and a subtotal that is the
    rounded sum of the items. *)
Definition well_formed_item (it : OrderItem.t) : Prop :=
  1 <= OrderItem.quantity it /\ nonneg (OrderItem.price it).

Definition well_formed_order (o : Order.t) : Prop :=
  Order.items o <> [] /\
  Forall well_formed_item (Order.items o) /\
  Order.subtotal o = PyFloat.round2 (sum_lines (Order.items o)) /\
  nonneg (Order.subtotal o).

(** A catalog whose identifiers are the ones [str] and [ObjectId] take to
    each other, and whose products can be sold. *)
Definition canonical_id (s : Stored) : Prop :=
  ObjectId_of_str (str_oid (_id s)) = Ret (_id s).

Definition catalog_ok (d : Database) : Prop :=
  Forall (fun s => canonical_id s /\ sellable (doc s)) (product d).

(** A query within the patterns [Regex] gives a meaning to: no query, or
    one made of literal characters and [.]. *)
Definition interpreted_query (q : option string) : Prop :=
  match q with
  | Some q' => Regex.compile q' <> None
  | None => True
  end.

(** The filter of a listing, read off its two parameters: a non-empty
    category has to be the product's, a non-empty query has to occur in
    it. *)
Definition listed_by (category q : option string) (p : Doc.t) : bool :=
  match category with
  | Some c => if truthy c
              then match Doc.category p with
                   | Some c' => String.eqb c c'
                   | None => false
                   end
              else true
  | None => true
  end &&
  match q with
  | Some q' => if truthy q' then matches_queryb q' p else true
  | None => true
  end.

(** The specification's words for an order, written without the
    conversions of the handler.  The price of a product is its [price]
    field as a float: an integer is converted, a float is taken as it is,
    a missing field counts as 0. *)
Definition catalog_price (p : Doc.t) : PyFloat.float :=
  match Doc.price p with
  | Some (NInt z) => PyFloat.of_Z z
  | Some (NFloat f) => f
  | None => PyFloat.zero
  end.

(** An order item is a frozen copy of the product its line resolves to:
    the product's name and price, and the quantity of the line. *)
Definition frozen_copy (d : Database) (line : CreateOrderItem.t) (it : OrderItem.t) : Prop :=
  exists s,
    resolves d (CreateOrderItem.product_id line) = Some s /\
    Doc.name (doc s) = Some (OrderItem.name it) /\
    OrderItem.price it = catalog_price (doc s) /\
    OrderItem.quantity it = CreateOrderItem.quantity line.

(** [n] is the integer nearest to [a / b], for [b > 0]; when [a / b] lies
    half way between two integers, the even one. *)
Definition nearest_integer (a b n : Z) : Prop :=
  Z.abs (2 * (a - n * b)) <= b /\
  (Z.abs (2 * (a - n * b)) = b -> Z.even n = true).

(** The float nearest to [cents / 100], with the sign [s] of what was
    rounded. *)
Definition float_of_cents (s : bool) (cents : Z) : PyFloat.float :=
  match cents with
  | Zpos n => PyFloat.div (S754_finite s n 0) (S754_finite false 100 0)
  | _ => S754_zero s
  end.

(** [y] is [x] rounded to two fraction digits.  A finite [x] is
    [m * 2^e] up to its sign.  With [e >= 0] it is an integer and has no
    fraction digit to round off.  Otherwise its hundredths,
    [100 * m / 2^(-e)], are rounded to the nearest integer, and [y] is the
    float nearest to that many hundredths.  Zeros, infinities and NaN are
    their own rounding. *)
Definition rounded_to_cents (x y : PyFloat.float) : Prop :=
  match x with
  | S754_finite s m e =>
      (0 <= e /\ y = x) \/
      (e < 0 /\
       exists cents,
         nearest_integer (100 * Zpos m) (2 ^ (- e)) cents /\
         y = float_of_cents s cents)
  | _ => y = x
  end.

(** A quantity the order document can hold: an integer of the store has 64
    bits. *)
Definition storable_quantity (line : CreateOrderItem.t) : Prop :=
  CreateOrderItem.quantity line < 2 ^ 63.

(** A request as C1 describes it: it passed the request model, it has at
    least one line, and every reference resolves to a stored product. *)
Definition all_resolve (w : World) (payload : CreateOrderRequest.t) : Prop :=
  CreateOrderRequest.valid payload = true /\
  CreateOrderRequest.items payload <> [] /\
  exists d,
    db w = Some d /\
    Forall (fun line => resolves d (CreateOrderItem.product_id line) <> None)
           (CreateOrderRequest.items payload).

(** A store that fails on [find_one] or on the order write alone. *)
Definition failing_write (c : StoreCall) : option string :=
  match c with
  | CreateDocument => Some "not primary"
  | _ => None
  end.

Definition read_only_world : World :=
  {| db := Some {| product := product seeded_database;
                   order := [];
                   next_id := 4;
                   outage := failing_write |};
     calls := [] |}.

(** A catalog whose one product got the identifier ten, which [str] prints
    with a letter. *)
Definition lettered_database : Database :=
  {| product := assign_ids 10 [nth 0 sample_products free_sample];
     order := [];
     next_id := 11;
     outage := fun _ => None |}.

Definition lettered_world : World := {| db := Some lettered_database; calls := [] |}.

(** A store whose [find_one] fails. *)
Definition failing_lookup (c : StoreCall) : option string :=
  match c with
  | FindOne => Some "connection reset"
  | _ => None
  end.

Definition blind_world : World :=
  {| db := Some {| product := product seeded_database;
                   order := [];
                   next_id := 4;
                   outage := failing_lookup |};
     calls := [] |}.

(** A catalog with a product that has no name and one whose price is
    negative. *)
Definition nameless : Doc.t :=
  Doc.mk None None (Some (NInt 5000)) (Some "Snacks") None None None [] true.

Definition refund : Doc.t :=
  Doc.mk (Some "Refund") None (Some (NInt (-5000))) (Some "Snacks") None None None [] true.

Definition odd_database : Database :=
  {| product := assign_ids 0 [nth 0 sample_products free_sample; nameless; refund];
     order := [];
     next_id := 3;
     outage := fun _ => None |}.

Definition odd_world : World := {| db := Some odd_database; calls := [] |}.

(* ================================================================== *)
(** ** More of [main.py]: the diagnostic endpoint *)
(* ================================================================== *)

(** [test_database] reads the environment, the [db] handle, its [name] and
    the names of its collections.  These are its inputs here: the two
    environment variables, and, when there is a handle, what
    [getattr(db, 'name', None)] and [db.list_collection_names()] answer.
    The response [dict] is updated in place, so an exception keeps the
    updates made before it. *)
Module Health.

Record Response : Type := {
  backend : string;
  database : string;
  database_url : option string;
  database_name : option string;
  connection_status : string;
  collections : list string
}.

Record Env : Type := {
  DATABASE_URL : option string;
  DATABASE_NAME : option string
}.

Record Handle : Type := {
  name : option string;
  list_collection_names : Result (list string)
}.

(** Truthiness of what [os.getenv] or [getattr] answers. *)
Definition is_set (v : option string) : bool :=
  match v with
  | Some s => truthy s
  | None => false
  end.

(** ["✅ Set" if os.getenv(..) else "❌ Not Set"]. *)
Definition set_label (v : option string) : string :=
  if is_set v then "✅ Set" else "❌ Not Set".

Definition set_database (v : string) : M Response unit :=
  fun r => (Ret tt,
            {| backend := backend r; database := v;
               database_url := database_url r; database_name := database_name r;
               connection_status := connection_status r;
               collections := collections r |}).

Definition set_database_url (v : option string) : M Response unit :=
  fun r => (Ret tt,
            {| backend := backend r; database := database r;
               database_url := v; database_name := database_name r;
               connection_status := connection_status r;
               collections := collections r |}).

Definition set_database_name (v : option string) : M Response unit :=
  fun r => (Ret tt,
            {| backend := backend r; database := database r;
               database_url := database_url r; database_name := v;
               connection_status := connection_status r;
               collections := collections r |}).

Definition set_connection_status (v : string) : M Response unit :=
  fun r => (Ret tt,
            {| backend := backend r; database := database r;
               database_url := database_url r; database_name := database_name r;
               connection_status := v;
               collections := collections r |}).

Definition set_collections (v : list string) : M Response unit :=
  fun r => (Ret tt,
            {| backend := backend r; database := database r;
               database_url := database_url r; database_name := database_name r;
               connection_status := connection_status r;
               collections := v |}).

(** The text of this endpoint is UTF-8: a character is a lead byte with
    the continuation bytes ([10xxxxxx]) that follow it. *)
Definition is_continuation (c : ascii) : bool := in_range "128" "191" c.

(** [len(s)]: the number of characters. *)
Fixpoint chars (s : string) : nat :=
  match s with
  | EmptyString => O
  | String c s' => if is_continuation c then chars s' else S (chars s')
  end.

(** [s[:n]]: the first [n] characters. *)
Fixpoint take_chars (n : nat) (s : string) : string :=
  match s with
  | EmptyString => EmptyString
  | String c s' =>
      if is_continuation c then String c (take_chars n s')
      else match n with
           | O => EmptyString
           | S n' => String c (take_chars n' s')
           end
  end.

(** [str(e)[:80]]. *)
Definition cut (e : exn) : string := take_chars 80 (str_exn e).

Definition initial : Response :=
  {| backend := "✅ Running";
     database := "❌ Not Available";
     database_url := None;
     database_name := None;
     connection_status := "Not Connected";
     collections := [] |}.

Definition test_database (env : Env) (db : option Handle) : Response :=
  let body : M Response unit :=
    (try_except
       (match db with
        | Some h =>
            set_database "✅ Available" ;;;
            set_database_url (Some (set_label (DATABASE_URL env))) ;;;
            set_database_name
              (Some (if is_set (name h)
                     then match name h with Some n => n | None => "" end
                     else set_label (DATABASE_NAME env))) ;;;
            set_connection_status "Connected" ;;;
            try_except
              (names <- lift (list_collection_names h) ;;
               set_collections (firstn 10 names) ;;;
               set_database "✅ Connected & Working")
              (fun e => set_database ("⚠️  Connected but Error: " ++ cut e))
        | None => set_database "⚠️  Available but not initialized"
        end)
       (fun e => set_database ("❌ Error: " ++ cut e)))%py in
  let response := snd (body initial) in
  let response := snd (set_database_url (Some (set_label (DATABASE_URL env))) response) in
  let response := snd (set_database_name (Some (set_label (DATABASE_NAME env))) response) in
  response.

End Health.

(* ================================================================== *)
(** ** Facts on float arithmetic *)
(* ================================================================== *)

Module PyFloatFacts.
Import PyFloat.

Lemma emin_eq : emin prec emax = -1074.
Proof. reflexivity. Qed.

Lemma fexp_eq (e : Z) : fexp prec emax e = Z.max (e - 53) (-1074).
Proof. reflexivity. Qed.

Lemma iter_pos_nat {A} (f : A -> A) (n : positive) (x : A) :
  iter_pos f n x = Nat.iter (Pos.to_nat n) f x.
Proof.
  revert x. induction n as [n IH | n IH | ]; intros x; cbn [iter_pos].
  - rewrite !IH, <- Nat.iter_succ_r, <- Nat.iter_add. f_equal. lia.
  - rewrite !IH, <- Nat.iter_add. f_equal. lia.
  - reflexivity.
Qed.

Lemma shr_1_div2 (r : shr_record) :
  0 <= shr_m r -> shr_m (shr_1 r) = Z.div2 (shr_m r).
Proof.
  destruct r as [m b c]. simpl. intros H.
  destruct m as [ | [p | p | ] | p ]; simpl; try reflexivity; lia.
Qed.

Lemma iter_shr_1 (k : nat) (r : shr_record) :
  0 <= shr_m r ->
  shr_m (Nat.iter k shr_1 r) = Z.shiftr (shr_m r) (Z.of_nat k).
Proof.
  intros H. induction k as [ | k IH].
  - simpl. now rewrite Z.shiftr_0_r.
  - rewrite Nat2Z.inj_succ. simpl Nat.iter.
    rewrite shr_1_div2.
    + rewrite IH. rewrite Z.div2_spec. rewrite Z.shiftr_shiftr by lia.
      f_equal; lia.
    + rewrite IH. apply Z.shiftr_nonneg. exact H.
Qed.

Lemma shr_m_of_loc (m : Z) (l : location) : shr_m (shr_record_of_loc m l) = m.
Proof. destruct l as [ | [ | | ]]; reflexivity. Qed.

(** What [shr] leaves of a non-negative mantissa. *)
Lemma shr_spec (r : shr_record) (e n : Z) :
  0 <= shr_m r ->
  shr r e n = (fst (shr r e n), e + Z.max 0 n) /\
  shr_m (fst (shr r e n)) = Z.shiftr (shr_m r) (Z.max 0 n).
Proof.
  intros H. destruct n as [ | p | p]; simpl.
  - rewrite Z.add_0_r. split; [reflexivity | now rewrite Z.shiftr_0_r ].
  - split; [reflexivity | ].
    rewrite iter_pos_nat, iter_shr_1 by exact H.
    now rewrite positive_nat_Z.
  - rewrite Z.add_0_r. split; [reflexivity | now rewrite Z.shiftr_0_r ].
Qed.

Lemma Zdigits2_log2 (m : Z) : 0 < m -> Zdigits2 m = Z.log2 m + 1.
Proof.
  destruct m as [ | p | p]; try lia. intros _. simpl.
  induction p as [p IH | p IH | ]; simpl; try reflexivity.
  - destruct p; simpl in *; lia.
  - destruct p; simpl in *; lia.
Qed.

Lemma round_nearest_even_bounds (m : Z) (l : location) :
  m <= round_nearest_even m l <= m + 1.
Proof.
  destruct l as [ | [ | | ]]; simpl; try lia.
  destruct (Z.even m); lia.
Qed.

(** [shr_fexp] never produces a negative mantissa from a non-negative one. *)
Lemma shr_fexp_nonneg (m e : Z) (l : location) :
  0 <= m -> 0 <= shr_m (fst (shr_fexp prec emax m e l)).
Proof.
  intros H. unfold shr_fexp.
  destruct (shr_spec (shr_record_of_loc m l) e
              (fexp prec emax (Zdigits2 m + e) - e)) as [_ Hm].
  - now rewrite shr_m_of_loc.
  - rewrite Hm, shr_m_of_loc. apply Z.shiftr_nonneg. exact H.
Qed.

(** A mantissa whose magnitude lies above the smallest subnormal keeps a
    positive mantissa, and its magnitude, through [shr_fexp]. *)
Lemma shr_fexp_pos (m e : Z) (l : location) :
  0 < m -> emin prec emax < Zdigits2 m + e ->
  let r := shr_fexp prec emax m e l in
  0 < shr_m (fst r) /\ Zdigits2 (shr_m (fst r)) + snd r = Zdigits2 m + e.
Proof.
  intros Hm HD r. subst r. unfold shr_fexp.
  set (n := fexp prec emax (Zdigits2 m + e) - e).
  destruct (shr_spec (shr_record_of_loc m l) e n) as [Hs Hsm].
  { rewrite shr_m_of_loc. lia. }
  rewrite shr_m_of_loc in Hsm. rewrite Hs. cbn [fst snd]. rewrite Hsm.
  assert (Hn : Z.max 0 n <= Z.log2 m).
  { subst n. rewrite fexp_eq, emin_eq in *. rewrite Zdigits2_log2 in * by exact Hm.
    pose proof (Z.log2_nonneg m). lia. }
  assert (Hpos : 0 < Z.shiftr m (Z.max 0 n)).
  { rewrite Z.shiftr_div_pow2 by lia.
    apply Z.div_str_pos. split; [ apply Z.pow_pos_nonneg; lia | ].
    transitivity (2 ^ Z.log2 m).
    - apply Z.pow_le_mono_r; lia.
    - apply Z.log2_spec. exact Hm. }
  split; [exact Hpos | ].
  rewrite !Zdigits2_log2 by assumption.
  rewrite Z.log2_shiftr by exact Hm. lia.
Qed.

Lemma binary_round_aux_sign (s : bool) (mx ex : Z) (lx : location) :
  0 <= mx -> sign_is s (binary_round_aux prec emax s mx ex lx).
Proof.
  intros H. unfold binary_round_aux.
  pose proof (shr_fexp_nonneg mx ex lx H) as H1.
  destruct (shr_fexp prec emax mx ex lx) as [r1 e1]. cbn [fst] in H1.
  pose proof (round_nearest_even_bounds (shr_m r1) (loc_of_shr_record r1)) as Hr.
  pose proof (shr_fexp_nonneg (round_nearest_even (shr_m r1) (loc_of_shr_record r1))
                e1 loc_Exact ltac:(lia)) as H2.
  destruct (shr_fexp prec emax _ e1 loc_Exact) as [r2 e2]. cbn [fst] in H2.
  destruct (shr_m r2) as [ | p | p].
  - reflexivity.
  - destruct (e2 <=? emax - prec); reflexivity.
  - lia.
Qed.

Lemma binary_round_aux_nonzero (s : bool) (mx ex : Z) (lx : location) :
  0 < mx -> emin prec emax < Zdigits2 mx + ex ->
  nonzero (binary_round_aux prec emax s mx ex lx).
Proof.
  intros H HD. unfold binary_round_aux.
  pose proof (shr_fexp_pos mx ex lx H HD) as [H1 HD1].
  destruct (shr_fexp prec emax mx ex lx) as [r1 e1]. cbn [fst snd] in H1, HD1.
  pose proof (round_nearest_even_bounds (shr_m r1) (loc_of_shr_record r1)) as Hr.
  set (m1 := round_nearest_even (shr_m r1) (loc_of_shr_record r1)) in *.
  assert (Hm1 : 0 < m1) by lia.
  assert (HD2 : emin prec emax < Zdigits2 m1 + e1).
  { rewrite emin_eq in *. rewrite (Zdigits2_log2 m1 Hm1).
    rewrite (Zdigits2_log2 _ H1), (Zdigits2_log2 _ H) in HD1.
    rewrite (Zdigits2_log2 _ H) in HD.
    assert (Z.log2 (shr_m r1) <= Z.log2 m1) by (apply Z.log2_le_mono; lia). lia. }
  pose proof (shr_fexp_pos m1 e1 loc_Exact Hm1 HD2) as [H2 _].
  destruct (shr_fexp prec emax m1 e1 loc_Exact) as [r2 e2]. cbn [fst] in H2.
  destruct (shr_m r2) as [ | p | p]; try lia.
  destruct (e2 <=? emax - prec); exact I.
Qed.

Lemma nonneg_cases (x : float) :
  nonneg x <->
  match x with
  | S754_zero _ => True
  | S754_nan => False
  | S754_infinity s | S754_finite s _ _ => s = false
  end.
Proof.
  unfold nonneg, ge, zero, SFleb, SFcompare.
  destruct x as [s | s | | s m e]; try destruct s; simpl;
    split; intros H; try reflexivity; try exact I; try discriminate; try contradiction.
Qed.

Lemma sign_false_nonneg (x : float) : sign_is false x -> nonneg x.
Proof.
  intros H. apply nonneg_cases. destruct x; simpl in *; auto.
Qed.

Lemma binary_round_sign (s : bool) (m : positive) (e : Z) :
  sign_is s (binary_round prec emax s m e).
Proof.
  unfold binary_round. destruct (shl_align m e _) as [mz ez].
  apply binary_round_aux_sign. lia.
Qed.

Lemma of_Z_pos (z : Z) :
  0 < z -> sign_is false (of_Z z) /\ nonzero (of_Z z).
Proof.
  destruct z as [ | p | p]; try lia. intros _.
  unfold of_Z, binary_normalize. split; [apply binary_round_sign | ].
  unfold binary_round.
  destruct (shl_align p 0 _) as [mz ez] eqn:Hal.
  apply binary_round_aux_nonzero; [lia | ].
  unfold shl_align in Hal.
  assert (Hd : 0 < Zdigits2 (Z.pos mz)) by (simpl; lia).
  rewrite emin_eq.
  destruct (_ - 0) eqn:Hsub; inversion Hal; subst; try lia.
  rewrite fexp_eq. lia.
Qed.

(** The float of a quantity of at least 1 is a positive finite number. *)
Lemma of_int_pos (z : Z) (f : float) :
  1 <= z -> of_int z = Some f -> exists m e, f = S754_finite false m e.
Proof.
  intros Hz. unfold of_int. destruct (of_Z_pos z ltac:(lia)) as [Hs Hn].
  destruct (of_Z z) as [s | s | | s m e]; simpl in *; try contradiction; try discriminate.
  intros [= <-]. subst s. eauto.
Qed.

Lemma of_int_of_Z (z : Z) (f : float) : of_int z = Some f -> f = of_Z z.
Proof.
  unfold of_int. destruct (of_Z z); intros H; inversion H; reflexivity.
Qed.

Lemma mul_nonneg (x : float) (m : positive) (e : Z) :
  nonneg x -> nonneg (mul x (S754_finite false m e)).
Proof.
  intros H. apply nonneg_cases in H.
  destruct x as [s | s | | s mx ex]; simpl in *; try contradiction; subst.
  - apply nonneg_cases. exact I.
  - apply nonneg_cases. reflexivity.
  - apply sign_false_nonneg. unfold mul, SFmul.
    apply binary_round_aux_sign. lia.
Qed.

Lemma add_nonneg (x y : float) : nonneg x -> nonneg y -> nonneg (add x y).
Proof.
  intros Hx Hy. apply nonneg_cases in Hx. apply nonneg_cases in Hy.
  destruct x as [sx | sx | | sx mx ex]; destruct y as [sy | sy | | sy my ey];
    simpl in *; try contradiction; subst; apply nonneg_cases; simpl; auto.
  - destruct sx, sy; exact I.
  - apply nonneg_cases. apply sign_false_nonneg. unfold SFadd.
    cbn [cond_Zopp]. cbn [Z.add binary_normalize]. apply binary_round_sign.
Qed.

Lemma div_sign (s : bool) (n d : positive) :
  sign_is s (div (S754_finite s n 0) (S754_finite false d 0)).
Proof.
  unfold div, SFdiv.
  destruct (SFdiv_core_binary prec emax (Z.pos n) 0 (Z.pos d) 0) as [[mz ez] lz] eqn:H.
  replace (xorb s false) with s by (destruct s; reflexivity).
  apply binary_round_aux_sign.
  unfold SFdiv_core_binary in H.
  set (m' := match _ - _ - _ with Z0 => Z.pos n | Zpos _ => _ | Zneg _ => 0 end) in H.
  assert (Hm : 0 <= m').
  { subst m'. destruct (_ - _ - _); try lia. apply Z.shiftl_nonneg. lia. }
  pose proof (Z.div_pos m' (Z.pos d) Hm ltac:(lia)) as Hq.
  unfold Z.div in Hq. destruct (Z.div_eucl m' (Z.pos d)) as [q r].
  inversion H; subst. exact Hq.
Qed.

Lemma round2_nonneg (x : float) : nonneg x -> nonneg (round2 x).
Proof.
  intros H. destruct x as [s | s | | s m e]; simpl; try exact H.
  destruct (0 <=? e); [exact H | ].
  apply nonneg_cases in H. simpl in H. subst s.
  destruct (div_half_even _ _).
  - apply nonneg_cases. exact I.
  - apply sign_false_nonneg. apply div_sign.
  - apply nonneg_cases. exact I.
Qed.

Lemma shr_fexp_exponent (m e : Z) (l : location) :
  0 <= m ->
  snd (shr_fexp prec emax m e l) = Z.max e (fexp prec emax (Zdigits2 m + e)).
Proof.
  intros Hm. unfold shr_fexp.
  destruct (shr_spec (shr_record_of_loc m l) e
              (fexp prec emax (Zdigits2 m + e) - e)) as [Hs _].
  { now rewrite shr_m_of_loc. }
  rewrite Hs. cbn [snd]. lia.
Qed.

(** Below the overflow threshold a rounding is never an infinity. *)
Lemma binary_round_aux_finite (s : bool) (mx ex : Z) (lx : location) :
  0 < mx -> ex <= emax - prec ->
  emin prec emax < Zdigits2 mx + ex < emax ->
  match binary_round_aux prec emax s mx ex lx with
  | S754_infinity _ => False
  | _ => True
  end.
Proof.
  intros H Hex HD. unfold binary_round_aux.
  pose proof (shr_fexp_pos mx ex lx H (proj1 HD)) as [H1 HD1].
  pose proof (shr_fexp_exponent mx ex lx ltac:(lia)) as He1.
  destruct (shr_fexp prec emax mx ex lx) as [r1 e1]. cbn [fst snd] in H1, HD1, He1.
  pose proof (round_nearest_even_bounds (shr_m r1) (loc_of_shr_record r1)) as Hr.
  set (m1 := round_nearest_even (shr_m r1) (loc_of_shr_record r1)) in *.
  assert (Hm1 : 0 < m1) by lia.
  pose proof (shr_fexp_exponent m1 e1 loc_Exact ltac:(lia)) as He2.
  destruct (shr_fexp prec emax m1 e1 loc_Exact) as [r2 e2]. cbn [snd] in He2.
  destruct (shr_m r2) as [ | p | p]; try exact I.
  replace (e2 <=? emax - prec) with true; [exact I | ].
  symmetry. apply Z.leb_le.
  assert (Hlog : Z.log2 m1 <= Z.log2 (shr_m r1) + 1).
  { transitivity (Z.log2 (Z.succ (shr_m r1))).
    - apply Z.log2_le_mono. lia.
    - apply Z.log2_succ_le. }
  rewrite fexp_eq in *. rewrite emin_eq in *.
  rewrite (Zdigits2_log2 m1 Hm1) in He2.
  rewrite (Zdigits2_log2 _ H1), (Zdigits2_log2 _ H) in HD1.
  rewrite (Zdigits2_log2 _ H) in HD, He1.
  unfold emax, prec in *. lia.
Qed.

Lemma digits2_pos_shift (p k : positive) :
  digits2_pos (Pos.iter xO p k) = (digits2_pos p + k)%positive.
Proof.
  induction k as [ | k IH] using Pos.peano_ind.
  - cbn. lia.
  - rewrite Pos.iter_succ. cbn [digits2_pos]. rewrite IH. lia.
Qed.

Lemma shl_align_spec (mx : positive) (ex ex' : Z) :
  snd (shl_align mx ex ex') = Z.min ex ex' /\
  Z.pos (digits2_pos (fst (shl_align mx ex ex'))) + snd (shl_align mx ex ex')
  = Z.pos (digits2_pos mx) + ex.
Proof.
  unfold shl_align. destruct (ex' - ex) as [ | k | k] eqn:Hsub; cbn [fst snd].
  - lia.
  - lia.
  - rewrite digits2_pos_shift. lia.
Qed.

(** Every integer below [2^1023] converts: [float(n)] raises for none of
    them. *)
Lemma of_int_in_range (z : Z) :
  0 <= z < 2 ^ 1023 -> of_int z <> None.
Proof.
  intros [Hz Hlt]. unfold of_int, of_Z.
  destruct z as [ | p | p]; [discriminate | | lia].
  unfold binary_normalize, binary_round.
  assert (Hd : Z.pos (digits2_pos p) <= 1023).
  { change (Z.pos (digits2_pos p)) with (Zdigits2 (Z.pos p)).
    rewrite Zdigits2_log2 by lia.
    assert (Z.log2 (Z.pos p) < 1023) by (apply Z.log2_lt_pow2; lia). lia. }
  pose proof (shl_align_spec p 0 (fexp prec emax (Z.pos (digits2_pos p) + 0))) as [He HD].
  destruct (shl_align p 0 _) as [mz ez]. cbn [fst snd] in He, HD.
  rewrite fexp_eq in He.
  assert (Hfin : match binary_round_aux prec emax false (Z.pos mz) ez loc_Exact with
                 | S754_infinity _ => False
                 | _ => True
                 end).
  { apply binary_round_aux_finite; [lia | unfold emax, prec; lia | ].
    rewrite emin_eq. cbn [Zdigits2]. unfold emax. lia. }
  destruct (binary_round_aux _ _ _ _ _ _); try discriminate. contradiction.
Qed.

End PyFloatFacts.

(* ================================================================== *)
(** ** The lookup of a product and the loop over the lines *)
(* ================================================================== *)

Local Open Scope py_scope.

Ltac unfold_monad :=
  unfold bind, ret, raise, lift, try_except, db_is_None, store_call in *.

Lemma lookup_product_unconfigured (product_id : string) (w : World) :
  db w = None -> lookup_product product_id w = (Ret None, w).
Proof.
  intros Hdb. unfold lookup_product. unfold_monad. rewrite Hdb. reflexivity.
Qed.

Lemma lookup_product_empty (w : World) :
  lookup_product "" w = (Ret None, w).
Proof.
  unfold lookup_product. unfold_monad. destruct (db w); reflexivity.
Qed.

Lemma lookup_product_malformed (product_id : string) (w : World) (d : Database) (e : exn) :
  db w = Some d ->
  truthy product_id = true ->
  ObjectId_of_str product_id = Raise e ->
  lookup_product product_id w = (Raise e, w).
Proof.
  intros Hdb Ht He. unfold lookup_product. unfold_monad.
  rewrite Hdb, Ht, He. reflexivity.
Qed.

(** With a store that answers, the lookup is [resolves] and one [FindOne]
    in the log, unless the reference is empty or malformed. *)
Lemma lookup_product_found (product_id : string) (w : World) (d : Database) (s : Stored) :
  db w = Some d ->
  outage d FindOne = None ->
  resolves d product_id = Some s ->
  lookup_product product_id w =
    (Ret (Some s), {| db := Some d; calls := calls w ++ [FindOne] |}).
Proof.
  intros Hdb Hout Hres. unfold resolves in Hres.
  unfold lookup_product, find_one. unfold_monad. rewrite Hdb.
  destruct (truthy product_id); [ | discriminate].
  destruct (ObjectId_of_str product_id) as [oid | e]; [ | discriminate].
  cbn. rewrite Hdb, Hout, Hres. reflexivity.
Qed.

Lemma lookup_product_missing (product_id : string) (w : World) (d : Database) (oid : ObjectId) :
  db w = Some d ->
  outage d FindOne = None ->
  ObjectId_of_str product_id = Ret oid ->
  resolves d product_id = None ->
  lookup_product product_id w =
    (Ret None, {| db := Some d; calls := calls w ++ [FindOne] |}).
Proof.
  intros Hdb Hout Hoid Hres. unfold resolves in Hres.
  unfold lookup_product, find_one. unfold_monad. rewrite Hdb.
  assert (Ht : truthy product_id = true).
  { destruct product_id; [discriminate Hoid | reflexivity]. }
  rewrite Ht in *. rewrite Hoid in *.
  cbn. rewrite Hdb, Hout, Hres. reflexivity.
Qed.

(** The lookup never writes: the database is the one it started from, and
    the log grew by at most one [FindOne]. *)
Lemma lookup_product_reads_only (product_id : string) (w w' : World)
    (r : Result (option Stored)) :
  lookup_product product_id w = (r, w') ->
  db w' = db w /\ (calls w' = calls w \/ calls w' = calls w ++ [FindOne]).
Proof.
  unfold lookup_product, find_one. unfold_monad.
  destruct (db w) as [d | ] eqn:Hdb; cbn.
  - destruct (truthy product_id); cbn.
    + destruct (ObjectId_of_str product_id) as [oid | e]; cbn.
      * rewrite Hdb. destruct (outage d FindOne); intros [= <- <-]; cbn; auto.
      * intros [= <- <-]; auto.
    + intros [= <- <-]; auto.
  - intros [= <- <-]; auto.
Qed.

Lemma create_order_line_reads_only (line : CreateOrderItem.t)
    (acc : list OrderItem.t) (sub : PyFloat.float) (w w' : World)
    (r : Result (list OrderItem.t * PyFloat.float)) :
  create_order_line line acc sub w = (r, w') ->
  db w' = db w /\ (calls w' = calls w \/ calls w' = calls w ++ [FindOne]).
Proof.
  unfold create_order_line. unfold bind at 1.
  destruct (lookup_product (CreateOrderItem.product_id line) w) as [[[s | ] | e] w1] eqn:Hl;
    apply lookup_product_reads_only in Hl.
  - unfold_monad.
    destruct (float_of_number _); cbn; [ | now intros [= <- <-]].
    destruct (mul_int _ _); cbn; [ | now intros [= <- <-]].
    destruct (OrderItemSchema _ _ _ _); cbn; now intros [= <- <-].
  - unfold raise. now intros [= <- <-].
  - now intros [= <- <-].
Qed.

(** The loop only reads: whatever it answers, the database is unchanged and
    the log grew by [FindOne] calls alone. *)
Lemma create_order_loop_reads_only (lines : list CreateOrderItem.t) :
  forall (acc : list OrderItem.t) (sub : PyFloat.float) (w w' : World)
         (r : Result (list OrderItem.t * PyFloat.float)),
    create_order_loop lines acc sub w = (r, w') ->
    db w' = db w /\ exists k, calls w' = calls w ++ repeat FindOne k.
Proof.
  induction lines as [ | line rest IH]; intros acc sub w w' r.
  - cbn. unfold ret. intros [= <- <-].
    split; [reflexivity | exists 0%nat; cbn; now rewrite app_nil_r].
  - cbn [create_order_loop]. unfold bind at 1.
    destruct (create_order_line line acc sub w) as [[st | e] w1] eqn:Hline;
      apply create_order_line_reads_only in Hline; destruct Hline as [Hdb Hcalls].
    + intros Hrest. apply IH in Hrest. destruct Hrest as [Hdb' [k Hk]].
      split; [congruence | ].
      destruct Hcalls as [Hc | Hc]; rewrite Hk, Hc.
      * now exists k.
      * exists (S k). rewrite <- app_assoc. reflexivity.
    + intros [= <- <-]. split; [exact Hdb | ].
      destruct Hcalls as [Hc | Hc]; rewrite Hc.
      * exists 0%nat. cbn. now rewrite app_nil_r.
      * now exists 1%nat.
Qed.

(** The loop over [pre ++ rest] is the loop over [pre] followed, when it
    succeeds, by the loop over [rest]. *)
Lemma create_order_loop_app (pre rest : list CreateOrderItem.t) :
  forall (acc : list OrderItem.t) (sub : PyFloat.float) (w : World),
    create_order_loop (pre ++ rest) acc sub w =
    match create_order_loop pre acc sub w with
    | (Ret st, w') => create_order_loop rest (fst st) (snd st) w'
    | (Raise e, w') => (Raise e, w')
    end.
Proof.
  induction pre as [ | line pre IH]; intros acc sub w.
  - reflexivity.
  - cbn [app create_order_loop]. unfold bind.
    destruct (create_order_line line acc sub w) as [[st | e] w1]; [apply IH | reflexivity].
Qed.

(* ================================================================== *)
(** ** Order creation: the path to a persisted order *)
(* ================================================================== *)

Import PyFloatFacts.

(** Sufficient conditions, in the terms of [schemas.Product]: a name, and
    an integer price from 0 up, a float price that is [>= 0], or no price at
    all. *)
Lemma sellable_int_price (p : Doc.t) (z : Z) :
  Doc.name p <> None ->
  Doc.price p = Some (NInt z) ->
  0 <= z < 2 ^ 1023 ->
  sellable p.
Proof.
  intros Hname Hprice Hz. split; [exact Hname | ].
  unfold snapshot_price. rewrite Hprice. cbn [float_of_number].
  pose proof (of_int_in_range z Hz) as Hconv.
  destruct (PyFloat.of_int z) as [f | ] eqn:Hf; [ | congruence].
  exists f. split; [reflexivity | ].
  rewrite (of_int_of_Z _ _ Hf).
  destruct (Z.eq_dec z 0) as [-> | Hnz]; [reflexivity | ].
  apply sign_false_nonneg. apply of_Z_pos. lia.
Qed.

Lemma sellable_float_price (p : Doc.t) (f : PyFloat.float) :
  Doc.name p <> None ->
  Doc.price p = Some (NFloat f) ->
  nonneg f ->
  sellable p.
Proof.
  intros Hname Hprice Hf. split; [exact Hname | ].
  exists f. unfold snapshot_price. rewrite Hprice. now split.
Qed.


(** A quantity from 1 up to [2^1023] on a reference that resolves to a
    sellable product makes an orderable line. *)
Lemma orderable_in_range (d : Database) (line : CreateOrderItem.t) (s : Stored) :
  1 <= CreateOrderItem.quantity line < 2 ^ 1023 ->
  resolves d (CreateOrderItem.product_id line) = Some s ->
  sellable (doc s) ->
  orderable d line.
Proof.
  intros Hq Hres Hsell. split; [lia | ].
  split; [apply of_int_in_range; lia | eauto].
Qed.

Lemma world_eta (w : World) : w = {| db := db w; calls := calls w |}.
Proof. destruct w; reflexivity. Qed.

(** One orderable line: a single lookup, the snapshot appended, the line
    total added. *)
Lemma create_order_line_ok (d : Database) (line : CreateOrderItem.t)
    (acc : list OrderItem.t) (sub : PyFloat.float) (cs : list StoreCall) :
  outage d FindOne = None ->
  orderable d line ->
  nonneg sub ->
  exists it,
    create_order_line line acc sub {| db := Some d; calls := cs |} =
      (Ret (acc ++ [it], add_line sub it),
       {| db := Some d; calls := cs ++ [FindOne] |}) /\
    snapshot_of d line it /\
    nonneg (add_line sub it).
Proof.
  intros Hout (Hq & Hconv & s & Hres & Hname & price & Hprice & Hge) Hsub.
  destruct (Doc.name (doc s)) as [n | ] eqn:Hn; [ | congruence].
  destruct (PyFloat.of_int (CreateOrderItem.quantity line)) as [f | ] eqn:Hf; [ | congruence].
  exists (OrderItem.mk (str_oid (_id s)) n price (CreateOrderItem.quantity line)).
  assert (Hadd : add_line sub (OrderItem.mk (str_oid (_id s)) n price
                                 (CreateOrderItem.quantity line))
                 = PyFloat.add sub (PyFloat.mul price f)).
  { unfold add_line, line_total. cbn. now rewrite (of_int_of_Z _ _ Hf). }
  repeat split.
  - unfold create_order_line. unfold bind at 1.
    rewrite (lookup_product_found _ {| db := Some d; calls := cs |} d s eq_refl Hout Hres).
    cbn [calls]. unfold snapshot_price in Hprice. unfold_monad.
    rewrite Hprice. unfold mul_int. rewrite Hf.
    unfold OrderItemSchema. rewrite Hn.
    unfold nonneg in Hge. rewrite Hge.
    replace (1 <=? CreateOrderItem.quantity line) with true
      by (symmetry; apply Z.leb_le; exact Hq).
    cbn. rewrite Hadd. reflexivity.
  - exists s. cbn. auto.
  - rewrite Hadd. apply add_nonneg; [exact Hsub | ].
    destruct (of_int_pos _ _ Hq Hf) as (m & e & ->).
    apply mul_nonneg. exact Hge.
Qed.

Lemma create_order_loop_ok (d : Database) (lines : list CreateOrderItem.t) :
  outage d FindOne = None ->
  Forall (orderable d) lines ->
  forall (acc : list OrderItem.t) (sub : PyFloat.float) (cs : list StoreCall),
    nonneg sub ->
    exists its,
      create_order_loop lines acc sub {| db := Some d; calls := cs |} =
        (Ret (acc ++ its, fold_left add_line its sub),
         {| db := Some d; calls := cs ++ repeat FindOne (List.length lines) |}) /\
      Forall2 (snapshot_of d) lines its /\
      nonneg (fold_left add_line its sub).
Proof.
  intros Hout Hall. induction Hall as [ | line rest Hline Hrest IH]; intros acc sub cs Hsub.
  - exists []. cbn. rewrite !app_nil_r. repeat split; [constructor | exact Hsub].
  - destruct (create_order_line_ok d line acc sub cs Hout Hline Hsub)
      as (it & Hrun & Hsnap & Hnn).
    destruct (IH (acc ++ [it]) (add_line sub it) (cs ++ [FindOne]) Hnn)
      as (its & Hloop & Hsnaps & Hnn').
    exists (it :: its). repeat split.
    + cbn [create_order_loop]. unfold bind. rewrite Hrun. cbn [fst snd].
      rewrite Hloop. cbn [List.length repeat fold_left].
      rewrite <- !app_assoc. reflexivity.
    + constructor; assumption.
    + exact Hnn'.
Qed.

(** The whole handler on a request the store can serve. *)
Lemma create_order_ok (payload : CreateOrderRequest.t) (w : World) (d : Database) :
  db w = Some d ->
  outage d FindOne = None ->
  outage d CreateDocument = None ->
  CreateOrderRequest.items payload <> [] ->
  Forall (orderable d) (CreateOrderRequest.items payload) ->
  exists its,
    Forall2 (snapshot_of d) (CreateOrderRequest.items payload) its /\
    create_order payload w =
      (Ret {| message := "Order created";
              created_id := str_oid (mint (next_id d)) |},
       {| db := Some (with_order d
                        (order d ++
                         [{| order_id := mint (next_id d);
                             order_doc :=
                               Order.mk (CreateOrderRequest.customer_name payload)
                                        (CreateOrderRequest.customer_phone payload)
                                        (CreateOrderRequest.customer_address payload)
                                        its
                                        (PyFloat.round2 (sum_lines its))
                                        (CreateOrderRequest.notes payload) |}])
                        (next_id d + 1));
          calls := calls w
                   ++ repeat FindOne (List.length (CreateOrderRequest.items payload))
                   ++ [CreateDocument] |}).
Proof.
  intros Hdb Hfind Hwrite Hne Hall.
  assert (Hz : nonneg PyFloat.zero) by reflexivity.
  destruct (create_order_loop_ok d _ Hfind Hall [] PyFloat.zero (calls w) Hz)
    as (its & Hloop & Hsnaps & Hnn).
  exists its. split; [exact Hsnaps | ].
  unfold create_order.
  destruct (CreateOrderRequest.items payload) as [ | l ls] eqn:Hitems; [congruence | ].
  rewrite (world_eta w) at 1. rewrite Hdb.
  unfold bind at 1. rewrite Hloop. cbn [fst snd app].
  unfold bind at 1. unfold lift at 1. unfold OrderSchema.
  apply round2_nonneg in Hnn. unfold nonneg in Hnn. fold (sum_lines its) in Hnn.
  fold (sum_lines its). rewrite Hnn.
  unfold create_document. unfold_monad. cbn [db calls]. rewrite Hwrite.
  cbn. rewrite <- app_assoc. reflexivity.
Qed.

(* ================================================================== *)
(** ** Order creation: snapshot and subtotal *)
(* ================================================================== *)

(** The handler's conversions against the specification's words. *)
Lemma snapshot_price_catalog (p : Doc.t) (price : PyFloat.float) :
  snapshot_price p = Ret price -> price = catalog_price p.
Proof.
  unfold snapshot_price, catalog_price.
  destruct (Doc.price p) as [[z | f] | ]; cbn [float_of_number].
  - destruct (PyFloat.of_int z) as [g | ] eqn:Hg; [ | discriminate].
    intros [= <-]. now apply PyFloatFacts.of_int_of_Z.
  - now intros [= <-].
  - cbn. now intros [= <-].
Qed.

Lemma snapshot_frozen_copy (d : Database) (line : CreateOrderItem.t) (it : OrderItem.t) :
  snapshot_of d line it -> frozen_copy d line it.
Proof.
  intros (s & Hres & _ & Hname & Hprice & Hqty).
  exists s. repeat split; try assumption. now apply snapshot_price_catalog.
Qed.

Lemma div_half_even_nearest (a b : Z) :
  0 < b -> nearest_integer a b (PyFloat.div_half_even a b).
Proof.
  intros Hb. unfold nearest_integer, PyFloat.div_half_even.
  pose proof (Z.div_mod a b ltac:(lia)) as Hdm.
  pose proof (Z.mod_pos_bound a b Hb) as Hr.
  destruct (Z.compare_spec (2 * (a mod b)) b) as [Heq | Hlt | Hgt].
  - destruct (Z.even (a / b)) eqn:Hev.
    + split; [lia | now intros _].
    + split; [lia | ]. intros _.
      rewrite Z.even_add, Hev. reflexivity.
  - split; [lia | lia].
  - split; [lia | lia].
Qed.

Lemma nearest_integer_unique (a b n n' : Z) :
  0 < b -> nearest_integer a b n -> nearest_integer a b n' -> n = n'.
Proof.
  intros Hb [Hn Hn2] [Hn' Hn2'].
  assert (Hclose : n' = n \/ n' = n + 1 \/ n = n' + 1) by nia.
  destruct Hclose as [-> | [-> | ->]]; [reflexivity | | ].
  - assert (Ht : Z.abs (2 * (a - n * b)) = b) by nia.
    assert (Ht' : Z.abs (2 * (a - (n + 1) * b)) = b) by nia.
    specialize (Hn2 Ht). specialize (Hn2' Ht').
    rewrite Z.even_add, Hn2 in Hn2'. discriminate Hn2'.
  - assert (Ht : Z.abs (2 * (a - n' * b)) = b) by nia.
    assert (Ht' : Z.abs (2 * (a - (n' + 1) * b)) = b) by nia.
    specialize (Hn2' Ht). specialize (Hn2 Ht').
    rewrite Z.even_add, Hn2' in Hn2. discriminate Hn2.
Qed.

(** [round(x, 2)] is the rounding to two fraction digits, and nothing else
    is. *)
Lemma round2_rounded_to_cents (x y : PyFloat.float) :
  rounded_to_cents x y <-> y = PyFloat.round2 x.
Proof.
  destruct x as [s | s | | s m e]; cbn [rounded_to_cents PyFloat.round2];
    try tauto.
  assert (Hpow : e < 0 -> 0 < 2 ^ (- e)) by (intros He; apply Z.pow_pos_nonneg; lia).
  destruct (Z.leb_spec 0 e) as [He | He].
  - split; [intros [[_ H] | [H _]]; [exact H | lia] | intros H; left; now split].
  - specialize (Hpow He).
    pose proof (div_half_even_nearest (100 * Z.pos m) _ Hpow) as Hnear.
    assert (Hsame : float_of_cents s (PyFloat.div_half_even (100 * Z.pos m) (2 ^ (- e)))
                    = match PyFloat.div_half_even (100 * Z.pos m) (2 ^ (- e)) with
                      | Zpos n => PyFloat.div (S754_finite s n 0) (S754_finite false 100 0)
                      | _ => S754_zero s
                      end) by reflexivity.
    split.
    + intros [[H _] | [_ (cents & Hc & ->)]]; [lia | ].
      rewrite (nearest_integer_unique _ _ _ _ Hpow Hc Hnear). exact Hsame.
    + intros ->. right. split; [exact He | ].
      eexists. split; [exact Hnear | ]. symmetry. exact Hsame.
Qed.

(** C1, as the code has it.  On a configured store whose lookups and order
    write succeed, a request with a non-empty list of lines, each for 1 to
    [2^63 - 1] units of a reference that resolves to a stored product with
    a name and a price that is absent or a number [>= 0], succeeds: the
    handler answers the identifier the store assigned, exactly one order
    is appended to the order collection, its subtotal is the sum over its
    items of price times quantity, rounded to two fraction digits, and its
    items are, line by line, frozen copies of the products: stored
    identifier, current name, current price as a float and the requested
    quantity. *)
Theorem create_order_persists_snapshot_and_subtotal :
  forall (payload : CreateOrderRequest.t) (w : World) (d : Database),
    db w = Some d ->
    outage d FindOne = None ->
    outage d CreateDocument = None ->
    CreateOrderRequest.items payload <> [] ->
    Forall (orderable d) (CreateOrderRequest.items payload) ->
    Forall storable_quantity (CreateOrderRequest.items payload) ->
    exists (oid : ObjectId) (o : Order.t) (w' : World),
      create_order payload w =
        (Ret {| message := "Order created"; created_id := str_oid oid |}, w') /\
      orders_of w' = orders_of w ++ [{| order_id := oid; order_doc := o |}] /\
      Order.subtotal o = PyFloat.round2 (sum_lines (Order.items o)) /\
      rounded_to_cents (sum_lines (Order.items o)) (Order.subtotal o) /\
      Forall2 (snapshot_of d) (CreateOrderRequest.items payload) (Order.items o) /\
      Forall2 (frozen_copy d) (CreateOrderRequest.items payload) (Order.items o).
Proof.
  intros payload w d Hdb Hfind Hwrite Hne Hall _.
  destruct (create_order_ok payload w d Hdb Hfind Hwrite Hne Hall) as (its & Hsnaps & Hrun).
  eexists _, _, _. split; [exact Hrun | ].
  unfold orders_of. rewrite Hdb. cbn.
  split; [reflexivity | ]. split; [reflexivity | ].
  split; [now apply round2_rounded_to_cents | ].
  split; [exact Hsnaps | ].
  eapply Forall2_impl; [ | exact Hsnaps]. apply snapshot_frozen_copy.
Qed.

Lemma create_order_persists_snapshot_and_subtotal_witness :
  exists (oid : ObjectId) (o : Order.t) (w' : World),
    create_order (request [CreateOrderItem.mk strawberry_id 2]) seeded_world =
      (Ret {| message := "Order created"; created_id := str_oid oid |}, w') /\
    orders_of w' = orders_of seeded_world ++ [{| order_id := oid; order_doc := o |}] /\
    Order.subtotal o = PyFloat.round2 (sum_lines (Order.items o)) /\
    rounded_to_cents (sum_lines (Order.items o)) (Order.subtotal o) /\
    Forall2 (snapshot_of seeded_database) [CreateOrderItem.mk strawberry_id 2] (Order.items o) /\
    Forall2 (frozen_copy seeded_database) [CreateOrderItem.mk strawberry_id 2] (Order.items o).
Proof.
  apply (create_order_persists_snapshot_and_subtotal
           (request [CreateOrderItem.mk strawberry_id 2]) seeded_world seeded_database).
  - reflexivity.
  - reflexivity.
  - reflexivity.
  - cbn. discriminate.
  - cbn. constructor; [ | constructor].
    split; [cbn; lia | ]. split; [vm_compute; discriminate | ].
    eexists. split; [vm_compute; reflexivity | ].
    split; [cbn; discriminate | ].
    eexists. split; vm_compute; reflexivity.
  - cbn. constructor; [ | constructor]. unfold storable_quantity. cbn. lia.
Defined.

(** C1, as the specification has it, fails.  Each of these requests passed
    the request model, has one line, and its reference resolves to a
    stored product; none creates an order.  The product has no name; its
    price is negative; the quantity is too large for a float; the store
    refuses the order write; the store fails on the lookup. *)
Lemma create_order_resolved_yet_refused :
  (all_resolve odd_world (request [CreateOrderItem.mk "000000000000000000000001" 1]) /\
   fst (create_order (request [CreateOrderItem.mk "000000000000000000000001" 1]) odd_world)
   = Raise (ValidationError "OrderItem")) /\
  (all_resolve odd_world (request [CreateOrderItem.mk "000000000000000000000002" 1]) /\
   fst (create_order (request [CreateOrderItem.mk "000000000000000000000002" 1]) odd_world)
   = Raise (ValidationError "OrderItem")) /\
  (all_resolve seeded_world (request [CreateOrderItem.mk strawberry_id (2 ^ 1024)]) /\
   fst (create_order (request [CreateOrderItem.mk strawberry_id (2 ^ 1024)]) seeded_world)
   = Raise OverflowError) /\
  (all_resolve read_only_world (request [CreateOrderItem.mk strawberry_id 2]) /\
   fst (create_order (request [CreateOrderItem.mk strawberry_id 2]) read_only_world)
   = Raise (HTTPException 500 "Failed to create order: not primary")) /\
  (all_resolve blind_world (request [CreateOrderItem.mk strawberry_id 2]) /\
   fst (create_order (request [CreateOrderItem.mk strawberry_id 2]) blind_world)
   = Raise (PyMongoError "connection reset")).
Proof.
  repeat split;
    try (vm_compute; reflexivity);
    try (cbn; discriminate);
    try (eexists; split; [reflexivity | ];
         constructor; [vm_compute; discriminate | constructor]).
Qed.

(** The scenario of the specification: two units of a product priced 18000
    make one item of quantity 2 at 18000.0 under the product's name, and a
    subtotal of 36000.0. *)
Example create_order_two_strawberry_teas :
  exists w',
    create_order (request [CreateOrderItem.mk strawberry_id 2]) seeded_world =
      (Ret {| message := "Order created"; created_id := "000000000000000000000004" |}, w') /\
    map order_doc (orders_of w') =
      [ Order.mk None None None
          [ OrderItem.mk strawberry_id "Strawberry Bubble Tea" (PyFloat.of_Z 18000) 2 ]
          (PyFloat.of_Z 36000) None ].
Proof. eexists. split; vm_compute; reflexivity. Qed.

(* ================================================================== *)
(** ** Order creation: a product without a price *)
(* ================================================================== *)






(* ================================================================== *)
(** ** Order creation: references that do not resolve *)
(* ================================================================== *)

Lemma create_order_line_not_found (line : CreateOrderItem.t)
    (acc : list OrderItem.t) (sub : PyFloat.float) (w w1 : World) :
  lookup_product (CreateOrderItem.product_id line) w = (Ret None, w1) ->
  create_order_line line acc sub w =
    (Raise (HTTPException 404
              ("Product not found: " ++ CreateOrderItem.product_id line)), w1).
Proof.
  intros H. unfold create_order_line. unfold bind at 1. rewrite H. reflexivity.
Qed.

Lemma create_order_line_lookup_raises (line : CreateOrderItem.t)
    (acc : list OrderItem.t) (sub : PyFloat.float) (w w1 : World) (e : exn) :
  lookup_product (CreateOrderItem.product_id line) w = (Raise e, w1) ->
  create_order_line line acc sub w = (Raise e, w1).
Proof.
  intros H. unfold create_order_line. unfold bind at 1. rewrite H. reflexivity.
Qed.

(** An exception of the loop is the exception of the handler: nothing
    after the loop runs. *)
Lemma create_order_loop_raises (payload : CreateOrderRequest.t) (w w' : World) (e : exn) :
  create_order_loop (CreateOrderRequest.items payload) [] PyFloat.zero w = (Raise e, w') ->
  create_order payload w = (Raise e, w').
Proof.
  intros H. unfold create_order.
  destruct (CreateOrderRequest.items payload) as [ | l ls] eqn:Hitems.
  - cbn in H. discriminate H.
  - unfold bind at 1. rewrite H. reflexivity.
Qed.

(** The handler stops at the first line whose body raises. *)
Lemma create_order_stops_at (payload : CreateOrderRequest.t)
    (pre post : list CreateOrderItem.t) (line : CreateOrderItem.t)
    (w w' w'' : World) (st : list OrderItem.t * PyFloat.float) (e : exn) :
  CreateOrderRequest.items payload = pre ++ line :: post ->
  create_order_loop pre [] PyFloat.zero w = (Ret st, w') ->
  create_order_line line (fst st) (snd st) w' = (Raise e, w'') ->
  create_order payload w = (Raise e, w'').
Proof.
  intros Hitems Hpre Hline. apply create_order_loop_raises.
  rewrite Hitems, create_order_loop_app, Hpre.
  cbn [create_order_loop]. unfold bind at 1. rewrite Hline. reflexivity.
Qed.

(** A well-formed reference under which nothing is stored: after the
    lookups of the lines before it and its own, the handler answers the 404
    that names it. *)
Lemma create_order_missing_product (payload : CreateOrderRequest.t)
    (pre post : list CreateOrderItem.t) (line : CreateOrderItem.t)
    (w w' : World) (d : Database) (oid : ObjectId)
    (st : list OrderItem.t * PyFloat.float) :
  db w = Some d ->
  outage d FindOne = None ->
  CreateOrderRequest.items payload = pre ++ line :: post ->
  create_order_loop pre [] PyFloat.zero w = (Ret st, w') ->
  ObjectId_of_str (CreateOrderItem.product_id line) = Ret oid ->
  resolves d (CreateOrderItem.product_id line) = None ->
  create_order payload w =
    (Raise (HTTPException 404
              ("Product not found: " ++ CreateOrderItem.product_id line)),
     {| db := Some d; calls := calls w' ++ [FindOne] |}).
Proof.
  intros Hdb Hout Hitems Hpre Hoid Hres.
  destruct (create_order_loop_reads_only _ _ _ _ _ _ Hpre) as [Hdb' _].
  rewrite Hdb in Hdb'.
  eapply create_order_stops_at; [exact Hitems | exact Hpre | ].
  apply create_order_line_not_found.
  eapply lookup_product_missing; eassumption.
Qed.

(** A malformed reference: [ObjectId] raises, and the exception leaves the
    handler as it is. *)
Lemma create_order_malformed_product_id (payload : CreateOrderRequest.t)
    (pre post : list CreateOrderItem.t) (line : CreateOrderItem.t)
    (w w' : World) (d : Database) (e : exn)
    (st : list OrderItem.t * PyFloat.float) :
  db w = Some d ->
  CreateOrderRequest.items payload = pre ++ line :: post ->
  create_order_loop pre [] PyFloat.zero w = (Ret st, w') ->
  truthy (CreateOrderItem.product_id line) = true ->
  ObjectId_of_str (CreateOrderItem.product_id line) = Raise e ->
  create_order payload w = (Raise e, w') /\ http_status e = 500.
Proof.
  intros Hdb Hitems Hpre Ht He.
  destruct (create_order_loop_reads_only _ _ _ _ _ _ Hpre) as [Hdb' _].
  rewrite Hdb in Hdb'.
  split.
  - eapply create_order_stops_at; [exact Hitems | exact Hpre | ].
    apply create_order_line_lookup_raises.
    eapply lookup_product_malformed; eassumption.
  - unfold ObjectId_of_str in He.
    destruct (_ && _)%bool; [discriminate | ]. now injection He as <-.
Qed.

Lemma lookup_product_some (product_id : string) (w w1 : World) (d : Database) (s : Stored) :
  db w = Some d ->
  lookup_product product_id w = (Ret (Some s), w1) ->
  resolves d product_id = Some s.
Proof.
  intros Hdb. unfold lookup_product, find_one, resolves. unfold_monad. rewrite Hdb.
  destruct (truthy product_id); [ | discriminate].
  destruct (ObjectId_of_str product_id) as [oid | e]; [ | discriminate].
  cbn. rewrite Hdb. destruct (outage d FindOne); [discriminate | ].
  now intros [= -> _].
Qed.

Lemma create_order_line_some (line : CreateOrderItem.t)
    (acc : list OrderItem.t) (sub : PyFloat.float) (w w1 : World) (d : Database)
    (st : list OrderItem.t * PyFloat.float) :
  db w = Some d ->
  create_order_line line acc sub w = (Ret st, w1) ->
  resolves d (CreateOrderItem.product_id line) <> None.
Proof.
  intros Hdb. unfold create_order_line. unfold bind at 1.
  destruct (lookup_product (CreateOrderItem.product_id line) w) as [[[s | ] | e] w2] eqn:Hl.
  - intros _. rewrite (lookup_product_some _ _ _ _ _ Hdb Hl). discriminate.
  - discriminate.
  - discriminate.
Qed.

Lemma create_order_loop_unresolved (d : Database) (lines : list CreateOrderItem.t) :
  Exists (fun line => resolves d (CreateOrderItem.product_id line) = None) lines ->
  forall (acc : list OrderItem.t) (sub : PyFloat.float) (w : World),
    db w = Some d ->
    exists e w', create_order_loop lines acc sub w = (Raise e, w').
Proof.
  intros Hex. induction Hex as [line rest Hline | line rest _ IH]; intros acc sub w Hdb.
  - cbn [create_order_loop]. unfold bind.
    destruct (create_order_line line acc sub w) as [[st | e] w1] eqn:Hrun.
    + exfalso. exact (create_order_line_some _ _ _ _ _ _ _ Hdb Hrun Hline).
    + eauto.
  - cbn [create_order_loop]. unfold bind.
    destruct (create_order_line line acc sub w) as [[st | e] w1] eqn:Hrun.
    + apply IH. apply create_order_line_reads_only in Hrun. destruct Hrun as [Hdb' _].
      congruence.
    + eauto.
Qed.

(** Whatever else a request holds, one reference that does not resolve
    makes the handler fail, and fail before any write: the database is
    unchanged and the only calls made are lookups, however many of the
    earlier lines resolved. *)
Lemma create_order_unresolved_never_writes (payload : CreateOrderRequest.t)
    (w : World) (d : Database) :
  db w = Some d ->
  Exists (fun line => resolves d (CreateOrderItem.product_id line) = None)
         (CreateOrderRequest.items payload) ->
  exists e w',
    create_order payload w = (Raise e, w') /\
    db w' = db w /\
    exists k, calls w' = calls w ++ repeat FindOne k.
Proof.
  intros Hdb Hex.
  destruct (create_order_loop_unresolved d _ Hex [] PyFloat.zero w Hdb) as (e & w' & Hloop).
  exists e, w'. split; [now apply create_order_loop_raises | ].
  eapply create_order_loop_reads_only. exact Hloop.
Qed.

(** Without a database no reference resolves: the first line is answered
    with the 404 and the world is untouched. *)
Lemma create_order_unconfigured (payload : CreateOrderRequest.t)
    (line : CreateOrderItem.t) (rest : list CreateOrderItem.t) (w : World) :
  db w = None ->
  CreateOrderRequest.items payload = line :: rest ->
  create_order payload w =
    (Raise (HTTPException 404
              ("Product not found: " ++ CreateOrderItem.product_id line)), w).
Proof.
  intros Hdb Hitems.
  eapply (create_order_stops_at payload [] rest line w w w ([], PyFloat.zero));
    [exact Hitems | reflexivity | ].
  apply create_order_line_not_found. now apply lookup_product_unconfigured.
Qed.

(** C10. A line whose [product_id] is the empty string: the lookup answers
    [None] and leaves the world as it found it, so no call reached the
    store; the identifier was not parsed, since parsing the empty string
    raises; and the handler, after the lookups of the lines before it,
    answers the 404 whose message names the empty reference. *)
Theorem create_order_empty_product_id :
  forall (payload : CreateOrderRequest.t)
         (pre post : list CreateOrderItem.t) (line : CreateOrderItem.t)
         (w w' : World) (st : list OrderItem.t * PyFloat.float),
    CreateOrderRequest.items payload = pre ++ line :: post ->
    CreateOrderItem.product_id line = "" ->
    create_order_loop pre [] PyFloat.zero w = (Ret st, w') ->
    lookup_product (CreateOrderItem.product_id line) w' = (Ret None, w') /\
    ObjectId_of_str (CreateOrderItem.product_id line) = Raise (InvalidId "") /\
    create_order payload w = (Raise (HTTPException 404 "Product not found: "), w') /\
    http_status (HTTPException 404 "Product not found: ") = 404 /\
    db w' = db w.
Proof.
  intros payload pre post line w w' st Hitems Hid Hpre.
  assert (Hlook : lookup_product (CreateOrderItem.product_id line) w' = (Ret None, w')).
  { rewrite Hid. apply lookup_product_empty. }
  split; [exact Hlook | ]. split; [now rewrite Hid | ].
  split; [ | split; [reflexivity | ]].
  - replace "Product not found: "
      with ("Product not found: " ++ CreateOrderItem.product_id line)%string
      by (rewrite Hid; reflexivity).
    eapply create_order_stops_at; [exact Hitems | exact Hpre | ].
    now apply create_order_line_not_found.
  - eapply create_order_loop_reads_only. exact Hpre.
Qed.

Lemma create_order_empty_product_id_witness :
  lookup_product "" (snd (lookup_product strawberry_id seeded_world))
    = (Ret None, snd (lookup_product strawberry_id seeded_world)) /\
  ObjectId_of_str "" = Raise (InvalidId "") /\
  create_order (request [CreateOrderItem.mk strawberry_id 1; CreateOrderItem.mk "" 1])
               seeded_world
    = (Raise (HTTPException 404 "Product not found: "),
       snd (lookup_product strawberry_id seeded_world)) /\
  http_status (HTTPException 404 "Product not found: ") = 404 /\
  db (snd (lookup_product strawberry_id seeded_world)) = db seeded_world.
Proof.
  apply (create_order_empty_product_id
           (request [CreateOrderItem.mk strawberry_id 1; CreateOrderItem.mk "" 1])
           [CreateOrderItem.mk strawberry_id 1] [] (CreateOrderItem.mk "" 1)
           seeded_world (snd (lookup_product strawberry_id seeded_world))
           ([OrderItem.mk strawberry_id "Strawberry Bubble Tea" (PyFloat.of_Z 18000) 1],
            PyFloat.of_Z 18000)).
  - reflexivity.
  - reflexivity.
  - vm_compute. reflexivity.
Defined.

(** C3. A reference that is not an ObjectId (here a string that is not 24
    hexadecimal digits) makes [ObjectId] raise [InvalidId] during the
    lookup; nothing in the handler catches it, so the request ends in an
    unhandled exception, a 500, where the specification asks for the
    not-found answer.  The store is not reached. *)
Theorem create_order_malformed_id_crashes :
  create_order (request [CreateOrderItem.mk "strawberry-tea" 1]) seeded_world
    = (Raise (InvalidId "strawberry-tea"), seeded_world) /\
  http_status (InvalidId "strawberry-tea") = 500 /\
  resolves seeded_database "strawberry-tea" = None.
Proof. repeat split; vm_compute; reflexivity. Qed.

(** C2. A request whose first line resolves and whose second line holds a
    reference that no stored product has: [ObjectId] raises [InvalidId] on
    it, and the handler ends in that unhandled exception, a 500, instead of
    the 404 that names the missing reference.  No order is persisted: the
    database is the one the request found, and the only call made is the
    lookup of the first line. *)
Theorem create_order_unresolved_id_not_404 :
  resolves seeded_database "tea-42" = None /\
  create_order (request [CreateOrderItem.mk strawberry_id 1; CreateOrderItem.mk "tea-42" 1])
               seeded_world
    = (Raise (InvalidId "tea-42"),
       {| db := Some seeded_database; calls := calls seeded_world ++ [FindOne] |}) /\
  http_status (InvalidId "tea-42") = 500.
Proof. repeat split; vm_compute; reflexivity. Qed.

(* ================================================================== *)
(** ** Order creation: the empty request *)
(* ================================================================== *)

(** C4. A request with an empty [items] list is answered with the
    [HTTPException] of status 400, and the world is left as it was: no call
    reached the store (no lookup, no write), so nothing is persisted.  The
    same holds through the endpoint, whose validation accepts an empty
    list. *)
Theorem create_order_empty_items :
  forall (payload : CreateOrderRequest.t) (w : World),
    CreateOrderRequest.items payload = [] ->
    create_order payload w = (Raise (HTTPException 400 "No items provided"), w) /\
    post_api_orders payload w = (Raise (HTTPException 400 "No items provided"), w) /\
    http_status (HTTPException 400 "No items provided") = 400.
Proof.
  intros payload w Hitems.
  unfold post_api_orders, CreateOrderRequest.valid, create_order.
  rewrite Hitems. simpl. repeat split.
Qed.

Lemma create_order_empty_items_witness :
  CreateOrderRequest.items (request []) = [] /\
  create_order (request []) seeded_world
    = (Raise (HTTPException 400 "No items provided"), seeded_world).
Proof.
  split; [reflexivity | ].
  apply (create_order_empty_items (request []) seeded_world). reflexivity.
Defined.

(* ================================================================== *)
(** ** Request validation: the quantity *)
(* ================================================================== *)

Lemma valid_rejects (lines : list CreateOrderItem.t) (line : CreateOrderItem.t) :
  In line lines -> CreateOrderItem.valid line = false ->
  forallb CreateOrderItem.valid lines = false.
Proof.
  intros Hin Hbad. induction lines as [ | l ls IH]; [contradiction | ].
  cbn. destruct Hin as [-> | Hin].
  - now rewrite Hbad.
  - rewrite (IH Hin). apply andb_false_r.
Qed.

Lemma valid_accepts_ones (product_ids : list string) :
  forallb CreateOrderItem.valid
    (map (fun product_id => CreateOrderItem.mk product_id 1) product_ids) = true.
Proof.
  induction product_ids as [ | p ps IH]; [reflexivity | exact IH].
Qed.

(** C8. A body with a line whose quantity is zero or negative does not
    reach the handler: the endpoint answers the validation error, a 422,
    and the world is untouched, so nothing is persisted.  A quantity of
    exactly 1 passes the request model, and a body whose lines all ask for
    one unit is handed to the handler. *)
Theorem quantity_boundary :
  forall (body : CreateOrderRequest.t) (line : CreateOrderItem.t) (w : World),
    In line (CreateOrderRequest.items body) ->
    CreateOrderItem.quantity line <= 0 ->
    CreateOrderItem.valid line = false /\
    post_api_orders body w = (Raise RequestValidationError, w) /\
    (400 <= http_status RequestValidationError < 500) /\
    (forall product_id, CreateOrderItem.valid (CreateOrderItem.mk product_id 1) = true) /\
    (forall product_ids w0,
        post_api_orders
          (request (map (fun product_id => CreateOrderItem.mk product_id 1) product_ids)) w0
        = create_order
          (request (map (fun product_id => CreateOrderItem.mk product_id 1) product_ids)) w0).
Proof.
  intros body line w Hin Hq.
  assert (Hbad : CreateOrderItem.valid line = false).
  { unfold CreateOrderItem.valid. apply Z.leb_gt. lia. }
  split; [exact Hbad | ]. split; [ | split; [cbn; lia | split; [reflexivity | ]]].
  - unfold post_api_orders, CreateOrderRequest.valid.
    now rewrite (valid_rejects _ _ Hin Hbad).
  - intros product_ids w0. unfold post_api_orders, CreateOrderRequest.valid.
    cbn [request CreateOrderRequest.items]. now rewrite valid_accepts_ones.
Qed.

Lemma quantity_boundary_witness :
  CreateOrderItem.valid (CreateOrderItem.mk strawberry_id 0) = false /\
  post_api_orders
    (request [CreateOrderItem.mk crepes_id 2; CreateOrderItem.mk strawberry_id 0])
    seeded_world
  = (Raise RequestValidationError, seeded_world).
Proof.
  destruct (quantity_boundary
              (request [CreateOrderItem.mk crepes_id 2; CreateOrderItem.mk strawberry_id 0])
              (CreateOrderItem.mk strawberry_id 0) seeded_world) as (H1 & H2 & _).
  - cbn. right. left. reflexivity.
  - cbn. lia.
  - split; [exact H1 | exact H2].
Defined.

(** A negative quantity is turned away, one unit goes through. *)
Example negative_quantity_rejected :
  post_api_orders (request [CreateOrderItem.mk strawberry_id (-3)]) seeded_world
  = (Raise RequestValidationError, seeded_world).
Proof. reflexivity. Qed.

Example one_unit_accepted :
  fst (post_api_orders (request [CreateOrderItem.mk strawberry_id 1]) seeded_world)
  = Ret {| message := "Order created"; created_id := "000000000000000000000004" |}.
Proof. vm_compute. reflexivity. Qed.

(* ================================================================== *)
(** ** Seeding *)
(* ================================================================== *)

Lemma assign_ids_doc (docs : list Doc.t) :
  forall n, map doc (assign_ids n docs) = docs.
Proof.
  induction docs as [ | p rest IH]; intros n; cbn; [reflexivity | now rewrite IH].
Qed.

Lemma seed_fresh_world : seed_products_if_empty fresh_world = (Ret tt, seeded_world).
Proof. reflexivity. Qed.

Lemma count_documents_ok (w : World) (d : Database) :
  db w = Some d ->
  outage d CountDocuments = None ->
  count_documents w =
    (Ret (Z.of_nat (List.length (product d))),
     {| db := Some d; calls := calls w ++ [CountDocuments] |}).
Proof.
  intros Hdb Hout. unfold count_documents, store_call. now rewrite Hdb, Hout.
Qed.

Lemma insert_many_ok (docs : list Doc.t) (w : World) (d : Database) :
  db w = Some d ->
  outage d InsertMany = None ->
  insert_many docs w =
    (Ret tt,
     {| db := Some (with_product d (product d ++ assign_ids (next_id d) docs)
                                   (next_id d + N.of_nat (List.length docs)));
        calls := calls w ++ [InsertMany] |}).
Proof.
  intros Hdb Hout. unfold insert_many, store_call. now rewrite Hdb, Hout.
Qed.

Lemma db_is_None_configured (w : World) (d : Database) :
  db w = Some d -> db_is_None w = (Ret false, w).
Proof. intros Hdb. unfold db_is_None. now rewrite Hdb. Qed.

(** The seeder on a database that answers and holds no product. *)
Lemma seed_empty (w : World) (d : Database) :
  db w = Some d ->
  outage d CountDocuments = None ->
  outage d InsertMany = None ->
  product d = [] ->
  seed_products_if_empty w =
    (Ret tt,
     {| db := Some (with_product d (assign_ids (next_id d) sample_products)
                                   (next_id d + 4));
        calls := calls w ++ [CountDocuments; InsertMany] |}).
Proof.
  intros Hdb Hcount Hins Hempty.
  unfold seed_products_if_empty. unfold bind at 1.
  rewrite (db_is_None_configured w d Hdb). unfold bind at 1.
  rewrite (count_documents_ok w d Hdb Hcount), Hempty. cbn [List.length Z.of_nat Z.ltb Z.compare].
  rewrite (insert_many_ok sample_products {| db := Some d; calls := calls w ++ [CountDocuments] |}
             d eq_refl Hins), Hempty.
  cbn [calls app]. rewrite <- app_assoc. reflexivity.
Qed.

(** The seeder on a database that holds a product: one count, no write. *)
Lemma seed_nonempty (w : World) (d : Database) :
  db w = Some d ->
  outage d CountDocuments = None ->
  product d <> [] ->
  seed_products_if_empty w =
    (Ret tt, {| db := Some d; calls := calls w ++ [CountDocuments] |}).
Proof.
  intros Hdb Hcount Hne.
  unfold seed_products_if_empty. unfold bind at 1.
  rewrite (db_is_None_configured w d Hdb). unfold bind at 1.
  rewrite (count_documents_ok w d Hdb Hcount).
  destruct (product d) as [ | p ps]; [congruence | ].
  cbn [List.length]. rewrite Nat2Z.inj_succ.
  replace (0 <? Z.succ (Z.of_nat (List.length ps))) with true
    by (symmetry; apply Z.ltb_lt; lia).
  reflexivity.
Qed.

(** C5. Run one after the other on a database that answers: from an empty
    product collection the first call counts and inserts the four sample
    products, the second call counts and writes nothing, so the collection
    holds the sample set once; and on a collection that already holds a
    product the seeder counts and leaves the database as it is. *)
Theorem seed_products_if_empty_once :
  forall (w : World) (d : Database),
    db w = Some d ->
    outage d CountDocuments = None ->
    outage d InsertMany = None ->
    (product d = [] ->
     exists w1 d1 w2,
       seed_products_if_empty w = (Ret tt, w1) /\
       db w1 = Some d1 /\
       map doc (product d1) = sample_products /\
       calls w1 = calls w ++ [CountDocuments; InsertMany] /\
       seed_products_if_empty w1 = (Ret tt, w2) /\
       db w2 = Some d1 /\
       calls w2 = calls w1 ++ [CountDocuments]) /\
    (product d <> [] ->
     seed_products_if_empty w =
       (Ret tt, {| db := Some d; calls := calls w ++ [CountDocuments] |})).
Proof.
  intros w d Hdb Hcount Hins. split.
  - intros Hempty.
    eexists _, _, _.
    split; [apply (seed_empty w d Hdb Hcount Hins Hempty) | ].
    split; [reflexivity | ].
    split; [cbn [product with_product]; apply assign_ids_doc | ].
    split; [reflexivity | ].
    split.
    { apply seed_nonempty; [reflexivity | exact Hcount | ].
      cbn [product with_product]. unfold sample_products. cbn [assign_ids]. discriminate. }
    split; reflexivity.
  - intros Hne. now apply seed_nonempty.
Qed.

Lemma seed_products_if_empty_once_witness :
  exists w1 d1 w2,
    seed_products_if_empty fresh_world = (Ret tt, w1) /\
    db w1 = Some d1 /\
    map doc (product d1) = sample_products /\
    calls w1 = calls fresh_world ++ [CountDocuments; InsertMany] /\
    seed_products_if_empty w1 = (Ret tt, w2) /\
    db w2 = Some d1 /\
    calls w2 = calls w1 ++ [CountDocuments].
Proof.
  apply (seed_products_if_empty_once fresh_world empty_database); reflexivity.
Defined.

(** The seeder raises only what the store raised. *)
Lemma seed_raises_store_error (w w' : World) (e : exn) :
  seed_products_if_empty w = (Raise e, w') ->
  exists msg, e = PyMongoError msg.
Proof.
  unfold seed_products_if_empty, count_documents, insert_many. unfold_monad.
  destruct (db w) as [d | ] eqn:Hdb; cbn; [ | discriminate].
  rewrite Hdb. destruct (outage d CountDocuments) as [msg | ]; cbn.
  - intros [= <- _]. eauto.
  - destruct (0 <? _); cbn; [discriminate | ].
    destruct (outage d InsertMany) as [msg | ]; cbn; [ | discriminate].
    intros [= <- _]. eauto.
Qed.

(** C7, as the code has it.  An error the store raises during seeding is
    not caught: the listing that triggered the seeding ends with the same
    exception, in the same world, and the request is answered with a 500.
    The listing degrades only when no database is configured: then the
    seeder does nothing and the listing answers the static sample. *)
Theorem seeding_error_propagates :
  forall (category q : option string) (w w' : World) (e : exn),
    seed_products_if_empty w = (Raise e, w') ->
    list_products category q w = (Raise e, w') /\
    http_status e = 500 /\
    (forall cs,
        seed_products_if_empty {| db := None; calls := cs |}
          = (Ret tt, {| db := None; calls := cs |}) /\
        list_products category q {| db := None; calls := cs |}
          = (Ret fallback, {| db := None; calls := cs |})).
Proof.
  intros category q w w' e Hseed.
  destruct (seed_raises_store_error _ _ _ Hseed) as [msg ->].
  split; [ | split; [reflexivity | intros cs; split; reflexivity]].
  unfold list_products. unfold bind at 1. unfold db_is_None at 1.
  destruct (db w) as [d | ] eqn:Hdb.
  - unfold bind at 1. rewrite Hseed. reflexivity.
  - unfold seed_products_if_empty in Hseed. unfold_monad. rewrite Hdb in Hseed.
    discriminate.
Qed.

Lemma seeding_error_propagates_witness :
  list_products None None unreachable_world
    = (Raise (PyMongoError "connection refused"),
       {| db := db unreachable_world; calls := [CountDocuments] |}) /\
  http_status (PyMongoError "connection refused") = 500.
Proof.
  destruct (seeding_error_propagates None None unreachable_world
              {| db := db unreachable_world; calls := [CountDocuments] |}
              (PyMongoError "connection refused")) as (H1 & H2 & _).
  - reflexivity.
  - split; [exact H1 | exact H2].
Defined.

(** C7, as the specification has it, fails: there is a world in which the
    seeding raises a storage error and the listing does not complete. *)
Lemma seeding_error_not_swallowed :
  ~ (forall (w : World) (msg : string),
        fst (seed_products_if_empty w) = Raise (PyMongoError msg) ->
        exists items, fst (list_products None None w) = Ret items).
Proof.
  intros H.
  destruct (H unreachable_world "connection refused" eq_refl) as [items Hitems].
  vm_compute in Hitems. discriminate Hitems.
Qed.

(* ================================================================== *)
(** ** Listing: the search query *)
(* ================================================================== *)

Section Substring.

Local Open Scope string_scope.

Lemma prefixb_spec (p s : string) :
  prefixb p s = true <-> exists rest, s = p ++ rest.
Proof.
  revert s. induction p as [ | a p IH]; intros s; cbn.
  - split; [intros _; now exists s | reflexivity].
  - destruct s as [ | b s].
    + split; [discriminate | intros [rest H]; discriminate H].
    + rewrite andb_true_iff, IH. split.
      * intros [Hab [rest ->]]. apply Ascii.eqb_eq in Hab. subst b. now exists rest.
      * intros [rest [= -> ->]]. split; [apply Ascii.eqb_refl | now exists rest].
Qed.

Lemma substringb_spec (p s : string) :
  substringb p s = true <-> exists before after, s = before ++ p ++ after.
Proof.
  induction s as [ | c s IH]; cbn [substringb]; rewrite orb_true_iff, prefixb_spec.
  - split.
    + intros [[rest H] | H]; [ | discriminate]. now exists "", rest.
    + intros [before [after H]]. left.
      destruct before; [now exists after | discriminate H].
  - rewrite IH. split.
    + intros [[rest H] | [before [after ->]]].
      * now exists "", rest.
      * now exists (String c before), after.
    + intros [before [after H]]. destruct before as [ | b before].
      * left. now exists after.
      * right. injection H as _ ->. now exists before, after.
Qed.

Lemma occurs_inb_spec (q s : string) : occurs_inb q s = true <-> occurs_in q s.
Proof. apply substringb_spec. Qed.

Lemma occurs_in_empty (s : string) : occurs_inb "" s = true.
Proof. unfold occurs_inb. cbn. destruct (lower_string s); reflexivity. Qed.

Lemma matches_queryb_spec (q : string) (p : Doc.t) :
  matches_queryb q p = true <-> matches_query q p.
Proof.
  unfold matches_queryb, matches_query.
  rewrite !orb_true_iff, existsb_exists. split.
  - intros [[H | H] | [t [Hin H]]].
    + left. destruct (Doc.name p) as [n | ]; [ | discriminate].
      exists n. split; [reflexivity | now apply occurs_inb_spec].
    + right. left. destruct (Doc.description p) as [t | ]; [ | discriminate].
      exists t. split; [reflexivity | now apply occurs_inb_spec].
    + right. right. exists t. split; [exact Hin | now apply occurs_inb_spec].
  - intros [[n [Hn H]] | [[t [Ht H]] | [t [Hin H]]]].
    + left. left. rewrite Hn. now apply occurs_inb_spec.
    + left. right. rewrite Ht. now apply occurs_inb_spec.
    + right. exists t. split; [exact Hin | now apply occurs_inb_spec].
Qed.

End Substring.

Lemma compile_literal (q : string) :
  literal q -> Regex.compile q = Some (literals q).
Proof.
  unfold literal, literals. induction q as [ | c q IH]; [reflexivity | ].
  cbn [Regex.compile forallb_string list_ascii_of_string map].
  rewrite andb_true_iff, negb_true_iff. intros [Hc Hq]. rewrite (IH Hq), Hc.
  destruct (Ascii.eqb_spec c "."%char) as [-> | _]; [discriminate Hc | reflexivity].
Qed.

Lemma match_here_literals (q s : string) :
  Regex.match_here true (literals q) s = prefixb (lower_string q) (lower_string s).
Proof.
  unfold literals. revert s. induction q as [ | c q IH]; intros s; cbn; [reflexivity | ].
  destruct s as [ | x s]; cbn; [reflexivity | ]. now rewrite IH.
Qed.

Lemma search_literals (q s : string) :
  Regex.search true (literals q) s = occurs_inb q s.
Proof.
  unfold occurs_inb. induction s as [ | x s IH]; cbn [Regex.search lower_string substringb].
  - now rewrite match_here_literals.
  - now rewrite match_here_literals, IH.
Qed.

Lemma existsb_pointwise {A} (f g : A -> bool) (l : list A) :
  (forall a, f a = g a) -> existsb f l = existsb g l.
Proof.
  intros H. induction l as [ | a l IH]; cbn; [reflexivity | now rewrite H, IH].
Qed.

(** On a literal query, the [$or] of the three regular expressions is the
    substring search of the specification. *)
Lemma query_entry_matches (q : string) (p : Doc.t) :
  literal q ->
  entry_matches (AnyOf [ FieldRegex "name" q "i";
                         FieldRegex "description" q "i";
                         FieldRegex "tags" q "i" ]) p
  = matches_queryb q p.
Proof.
  intros Hq. unfold entry_matches, cond_matches, matches_queryb.
  cbn [existsb]. rewrite (compile_literal q Hq).
  change (Regex.caseless "i") with true.
  change (field_values "name" p)
    with (match Doc.name p with Some s => [s] | None => [] end).
  change (field_values "description" p)
    with (match Doc.description p with Some s => [s] | None => [] end).
  change (field_values "tags" p) with (Doc.tags p).
  rewrite orb_false_r, orb_assoc. f_equal; [f_equal | ].
  - destruct (Doc.name p); cbn; [ | reflexivity].
    now rewrite orb_false_r, search_literals.
  - destruct (Doc.description p); cbn; [ | reflexivity].
    now rewrite orb_false_r, search_literals.
  - apply existsb_pointwise. intros t. apply search_literals.
Qed.

Lemma query_entry_interpreted (q : string) :
  literal q ->
  entry_interpreted (AnyOf [ FieldRegex "name" q "i";
                             FieldRegex "description" q "i";
                             FieldRegex "tags" q "i" ]) = true.
Proof.
  intros Hq. cbn. now rewrite (compile_literal q Hq).
Qed.

Lemma find_ok (f : Filter) (w : World) (d : Database) :
  db w = Some d ->
  outage d Find = None ->
  forallb entry_interpreted f = true ->
  find f w =
    (Ret (filter (fun s => filter_matches f (doc s)) (product d)),
     {| db := Some d; calls := calls w ++ [Find] |}).
Proof.
  intros Hdb Hout Hf. unfold find, store_call. now rewrite Hdb, Hout, Hf.
Qed.

(** The listing for a literal query, on the database the seeder left: an
    empty query filters nothing. *)
Lemma list_products_literal (q : string) (w w1 : World) (d1 : Database) :
  db w1 = Some d1 ->
  db w <> None ->
  seed_products_if_empty w = (Ret tt, w1) ->
  outage d1 Find = None ->
  literal q ->
  list_products None (Some q) w =
    (Ret (map serialize
            (filter (fun s => if truthy q then matches_queryb q (doc s) else true)
                    (product d1))),
     {| db := Some d1; calls := calls w1 ++ [Find] |}).
Proof.
  intros Hdb1 Hdb Hseed Hout Hlit.
  unfold list_products. unfold bind at 1. unfold db_is_None at 1.
  destruct (db w) as [d | ]; [ | congruence].
  unfold bind at 1. rewrite Hseed. unfold bind at 1.
  destruct q as [ | c q].
  - cbn [filter_dict_of truthy].
    rewrite (find_ok [] w1 d1 Hdb1 Hout eq_refl). reflexivity.
  - cbn [filter_dict_of truthy app].
    rewrite (find_ok _ w1 d1 Hdb1 Hout).
    + unfold ret. do 3 f_equal. apply filter_ext. intros s.
      unfold filter_matches. cbn [forallb]. rewrite andb_true_r.
      now apply query_entry_matches.
    + cbn [forallb]. rewrite andb_true_r. now apply query_entry_interpreted.
Qed.

Lemma literal_query_keeps (q : string) (p : Doc.t) :
  (if truthy q then matches_queryb q p else true) = true <->
  q = "" \/ matches_query q p.
Proof.
  destruct q as [ | c q]; cbn [truthy].
  - split; [now left | reflexivity].
  - rewrite matches_queryb_spec. split; [now right | ].
    intros [H | H]; [discriminate H | exact H].
Qed.

(** C6, as the code has it.  The query is handed to the store as a regular
    expression.  When it holds no metacharacter, the listing of a
    configured store that answers is, in stored order, exactly the products
    of the seeded catalog for which the query is empty or occurs, letter
    case aside, in the name, in the description or in a tag.  In
    particular "strawberry" occurs in "Strawberry Bubble Tea". *)
Theorem list_products_literal_query :
  forall (q : string) (w : World) (d : Database),
    db w = Some d ->
    outage d CountDocuments = None ->
    outage d InsertMany = None ->
    outage d Find = None ->
    literal q ->
    exists (keep : Stored -> bool) (w1 w' : World) (d1 : Database),
      seed_products_if_empty w = (Ret tt, w1) /\
      db w1 = Some d1 /\
      (forall s, keep s = true <-> q = "" \/ matches_query q (doc s)) /\
      list_products None (Some q) w = (Ret (map serialize (filter keep (product d1))), w') /\
      occurs_in "strawberry" "Strawberry Bubble Tea".
Proof.
  intros q w d Hdb Hcount Hins Hfind Hlit.
  assert (Hstraw : occurs_in "strawberry" "Strawberry Bubble Tea").
  { apply occurs_inb_spec. reflexivity. }
  exists (fun s => if truthy q then matches_queryb q (doc s) else true).
  destruct (product d) as [ | p ps] eqn:Hprod.
  - pose proof (seed_empty w d Hdb Hcount Hins Hprod) as Hseed.
    eexists _, _, _.
    split; [exact Hseed | ]. split; [reflexivity | ].
    split; [intros s; apply literal_query_keeps | ].
    split; [ | exact Hstraw].
    refine (list_products_literal q w _
              (with_product d (assign_ids (next_id d) sample_products) (next_id d + 4))
              _ _ Hseed Hfind Hlit);
      [reflexivity | congruence].
  - assert (Hne : product d <> []) by (rewrite Hprod; discriminate).
    pose proof (seed_nonempty w d Hdb Hcount Hne) as Hseed.
    eexists _, _, _.
    split; [exact Hseed | ]. split; [reflexivity | ].
    split; [intros s; apply literal_query_keeps | ].
    split; [ | exact Hstraw].
    refine (list_products_literal q w _ d _ _ Hseed Hfind Hlit);
      [reflexivity | congruence].
Qed.

Lemma list_products_literal_query_witness :
  exists (keep : Stored -> bool) (w1 w' : World) (d1 : Database),
    seed_products_if_empty fresh_world = (Ret tt, w1) /\
    db w1 = Some d1 /\
    (forall s, keep s = true <-> "strawberry" = "" \/ matches_query "strawberry" (doc s)) /\
    list_products None (Some "strawberry") fresh_world
      = (Ret (map serialize (filter keep (product d1))), w') /\
    occurs_in "strawberry" "Strawberry Bubble Tea".
Proof.
  apply (list_products_literal_query "strawberry" fresh_world empty_database).
  - reflexivity.
  - reflexivity.
  - reflexivity.
  - reflexivity.
  - reflexivity.
Defined.

(** The query "strawberry" on the first listing: the one product named
    "Strawberry Bubble Tea". *)
Example list_products_strawberry :
  fst (list_products None (Some "strawberry") fresh_world)
  = Ret [ {| item_id := Some strawberry_id;
             item := nth 0 sample_products free_sample |} ].
Proof. vm_compute. reflexivity. Qed.

(** C6, as the specification has it, fails, in two ways.  The query
    [b.ba] lists the strawberry tea, whose tag [boba] the pattern matches,
    although [b.ba] occurs neither in its name, nor in its description,
    nor in a tag.  The empty query lists a product that has no name, no
    description and no tag, in which nothing can occur. *)
Lemma list_products_query_is_a_pattern :
  (exists (items : list Item) (s : Stored),
     fst (list_products None (Some "b.ba") seeded_world) = Ret items /\
     In s (product seeded_database) /\
     In (serialize s) items /\
     ~ matches_query "b.ba" (doc s)) /\
  (exists (items : list Item) (s : Stored),
     fst (list_products None (Some "") odd_world) = Ret items /\
     In s (product odd_database) /\
     In (serialize s) items /\
     ~ matches_query "" (doc s)).
Proof.
  split.
  - exists (map serialize (firstn 2 (product seeded_database))).
    exists (nth 0 (product seeded_database) {| _id := mint 0; doc := free_sample |}).
    split; [vm_compute; reflexivity | ].
    split; [left; reflexivity | ].
    split; [left; reflexivity | ].
    intros H. apply matches_queryb_spec in H. vm_compute in H. discriminate H.
  - exists (map serialize (product odd_database)).
    exists (nth 1 (product odd_database) {| _id := mint 0; doc := free_sample |}).
    split; [vm_compute; reflexivity | ].
    split; [right; left; reflexivity | ].
    split; [right; left; reflexivity | ].
    intros H. apply matches_queryb_spec in H. vm_compute in H. discriminate H.
Qed.

(* ================================================================== *)
(** ** Orders are not touched by the catalog *)
(* ================================================================== *)

(** A store call whose body leaves the order collection alone leaves the
    orders of the world alone, whether it succeeds or raises. *)
Lemma store_call_keeps_orders {A} (c : StoreCall)
    (f : Database -> Result A * Database) (w : World) :
  (forall d, order (snd (f d)) = order d) ->
  orders_of (snd (store_call c f w)) = orders_of w.
Proof.
  intros Hf. unfold store_call, orders_of.
  destruct (db w) as [d | ] eqn:Hdb; cbn; [ | now rewrite Hdb].
  destruct (outage d c); cbn; [reflexivity | ].
  specialize (Hf d). destruct (f d) as [r d']. exact Hf.
Qed.

Lemma bind_keeps_orders {A B} (m : M World A) (k : A -> M World B) (w : World) :
  (forall w0, orders_of (snd (m w0)) = orders_of w0) ->
  (forall a w0, orders_of (snd (k a w0)) = orders_of w0) ->
  orders_of (snd (bind m k w)) = orders_of w.
Proof.
  intros Hm Hk. unfold bind. specialize (Hm w).
  destruct (m w) as [[a | e] w1]; cbn [snd] in *; [ | exact Hm].
  now rewrite Hk.
Qed.

(** Seeding and listing write to the product collection only: the orders
    persisted before are the orders found after, item for item. *)
Lemma seed_keeps_orders (w : World) :
  orders_of (snd (seed_products_if_empty w)) = orders_of w.
Proof.
  unfold seed_products_if_empty.
  apply bind_keeps_orders; [reflexivity | ].
  intros [ | ] w0; [reflexivity | ].
  apply bind_keeps_orders.
  - intros w1. now apply store_call_keeps_orders.
  - intros count w1. destruct (0 <? count); [reflexivity | ].
    now apply store_call_keeps_orders.
Qed.

Lemma list_products_keeps_orders (category q : option string) (w : World) :
  orders_of (snd (list_products category q w)) = orders_of w.
Proof.
  unfold list_products.
  apply bind_keeps_orders; [reflexivity | ].
  intros [ | ] w0; [reflexivity | ].
  apply bind_keeps_orders; [apply seed_keeps_orders | ].
  intros _ w1. apply bind_keeps_orders; [ | reflexivity].
  intros w2. apply store_call_keeps_orders.
  intros d. now destruct (forallb entry_interpreted _).
Qed.

(* ================================================================== *)
(** ** Order creation: every outcome *)
(* ================================================================== *)

(** A line that went through left a well-formed snapshot behind. *)
Lemma create_order_line_inv (line : CreateOrderItem.t)
    (acc : list OrderItem.t) (sub : PyFloat.float) (w w1 : World) (d : Database)
    (st : list OrderItem.t * PyFloat.float) :
  db w = Some d ->
  create_order_line line acc sub w = (Ret st, w1) ->
  exists it,
    st = (acc ++ [it], add_line sub it) /\
    snapshot_of d line it /\
    well_formed_item it.
Proof.
  intros Hdb. unfold create_order_line. unfold bind at 1.
  destruct (lookup_product (CreateOrderItem.product_id line) w) as [[[s | ] | e] w2] eqn:Hl;
    [ | discriminate | discriminate].
  pose proof (lookup_product_some _ _ _ _ _ Hdb Hl) as Hres.
  unfold_monad.
  destruct (float_of_number _) as [price | e] eqn:Hprice; [ | discriminate].
  unfold mul_int.
  destruct (PyFloat.of_int (CreateOrderItem.quantity line)) as [f | ] eqn:Hf; [ | discriminate].
  unfold OrderItemSchema.
  destruct (Doc.name (doc s)) as [n | ] eqn:Hn; [ | discriminate].
  destruct (PyFloat.ge price PyFloat.zero) eqn:Hge; [ | discriminate].
  destruct (1 <=? CreateOrderItem.quantity line) eqn:Hq; [ | discriminate].
  cbn. intros [= <- _].
  exists (OrderItem.mk (str_oid (_id s)) n price (CreateOrderItem.quantity line)).
  split; [ | split].
  - unfold add_line, line_total. cbn.
    now rewrite (PyFloatFacts.of_int_of_Z _ _ Hf).
  - exists s. cbn. auto.
  - split; cbn; [now apply Z.leb_le | exact Hge].
Qed.

Lemma create_order_loop_inv (lines : list CreateOrderItem.t) :
  forall (acc : list OrderItem.t) (sub : PyFloat.float) (w w1 : World) (d : Database)
         (st : list OrderItem.t * PyFloat.float),
    db w = Some d ->
    create_order_loop lines acc sub w = (Ret st, w1) ->
    exists its,
      st = (acc ++ its, fold_left add_line its sub) /\
      Forall2 (snapshot_of d) lines its /\
      Forall well_formed_item its.
Proof.
  induction lines as [ | line rest IH]; intros acc sub w w1 d st Hdb.
  - cbn. unfold ret. intros [= <- _]. exists []. rewrite app_nil_r. auto.
  - cbn [create_order_loop]. unfold bind at 1.
    destruct (create_order_line line acc sub w) as [[st1 | e] w2] eqn:Hline; [ | discriminate].
    destruct (create_order_line_inv _ _ _ _ _ _ _ Hdb Hline) as (it & -> & Hsnap & Hwf).
    apply create_order_line_reads_only in Hline. destruct Hline as [Hdb2 _].
    rewrite Hdb in Hdb2. cbn [fst snd]. intros Hrest.
    destruct (IH _ _ _ _ _ _ Hdb2 Hrest) as (its & -> & Hsnaps & Hwfs).
    exists (it :: its). rewrite <- app_assoc. cbn. auto.
Qed.

(** The two ways the handler ends.  An exception leaves the database as the
    request found it.  An answer means that there is a database, that
    every line resolved to a snapshot, and that the database gained the one
    order made of these snapshots. *)
Lemma create_order_inv (payload : CreateOrderRequest.t) (w w' : World)
    (r : Result OrderCreated) :
  create_order payload w = (r, w') ->
  match r with
  | Raise _ => db w' = db w
  | Ret res =>
      exists d its,
        db w = Some d /\
        CreateOrderRequest.items payload <> [] /\
        Forall2 (snapshot_of d) (CreateOrderRequest.items payload) its /\
        Forall well_formed_item its /\
        nonneg (PyFloat.round2 (sum_lines its)) /\
        res = {| message := "Order created";
                 created_id := str_oid (mint (next_id d)) |} /\
        db w' = Some (with_order d
                        (order d ++
                         [{| order_id := mint (next_id d);
                             order_doc :=
                               Order.mk (CreateOrderRequest.customer_name payload)
                                        (CreateOrderRequest.customer_phone payload)
                                        (CreateOrderRequest.customer_address payload)
                                        its
                                        (PyFloat.round2 (sum_lines its))
                                        (CreateOrderRequest.notes payload) |}])
                        (next_id d + 1))
  end.
Proof.
  unfold create_order.
  destruct (CreateOrderRequest.items payload) as [ | l ls] eqn:Hitems.
  - unfold raise. now intros [= <- <-].
  - unfold bind at 1.
    destruct (create_order_loop (l :: ls) [] PyFloat.zero w) as [[st | e] w1] eqn:Hloop.
    2:{ intros [= <- <-]. eapply create_order_loop_reads_only. exact Hloop. }
    destruct (create_order_loop_reads_only _ _ _ _ _ _ Hloop) as [Hdb1 _].
    unfold bind at 1. unfold lift at 1. unfold OrderSchema.
    destruct (PyFloat.ge (PyFloat.round2 (snd st)) PyFloat.zero) eqn:Hge.
    2:{ now intros [= <- <-]. }
    unfold create_document. unfold_monad.
    destruct (db w1) as [d | ] eqn:Hd1.
    2:{ intros [= <- <-]. congruence. }
    destruct (outage d CreateDocument) as [msg | ].
    { cbv beta iota zeta. intros [= <- <-]. cbn [db]. congruence. }
    cbv beta iota zeta. intros Hpair.
    apply pair_equal_spec in Hpair. destruct Hpair as [<- <-]. cbv beta iota.
    assert (Hdb : db w = Some d) by congruence.
    destruct (create_order_loop_inv _ _ _ _ _ _ _ Hdb Hloop) as (its & -> & Hsnaps & Hwfs).
    cbn [fst snd app] in *. fold (sum_lines its) in *.
    exists d, its. repeat split; try assumption. discriminate.
Qed.

(** X1. All or nothing: whatever exception ends a request to create an
    order (the 400, the 404, the 500 of a failed write, or one that nothing
    catches), the database is the one the request found: no order was
    written, no product changed, no identifier was used up. *)
Theorem create_order_failure_persists_nothing :
  forall (payload : CreateOrderRequest.t) (w w' : World) (e : exn),
    create_order payload w = (Raise e, w') ->
    db w' = db w.
Proof.
  intros payload w w' e H. exact (create_order_inv payload w w' (Raise e) H).
Qed.

Lemma create_order_failure_persists_nothing_witness :
  db (snd (create_order (request [CreateOrderItem.mk strawberry_id 2;
                                   CreateOrderItem.mk "tea-42" 1]) seeded_world))
  = db seeded_world.
Proof.
  apply (create_order_failure_persists_nothing
           (request [CreateOrderItem.mk strawberry_id 2; CreateOrderItem.mk "tea-42" 1])
           seeded_world _ (InvalidId "tea-42")).
  vm_compute. reflexivity.
Defined.

(** X2. The handler never touches the catalog and never rewrites an order:
    after any request, in any world, the products are the ones it found
    and the orders are the ones it found followed by at most one new
    order. *)
Theorem create_order_only_appends :
  forall (payload : CreateOrderRequest.t) (w : World),
    products_of (snd (create_order payload w)) = products_of w /\
    exists added,
      orders_of (snd (create_order payload w)) = orders_of w ++ added /\
      (List.length added <= 1)%nat.
Proof.
  intros payload w.
  destruct (create_order payload w) as [[res | e] w'] eqn:Hrun;
    pose proof (create_order_inv _ _ _ _ Hrun) as H; cbn [snd].
  - destruct H as (d & its & Hdb & _ & _ & _ & _ & _ & Hdb').
    unfold products_of, orders_of. rewrite Hdb, Hdb'. cbn.
    split; [reflexivity | ]. eexists. split; [reflexivity | ]. cbn. lia.
  - unfold products_of, orders_of. rewrite H. split; [reflexivity | ].
    exists []. rewrite app_nil_r. split; [reflexivity | ]. cbn. lia.
Qed.

(** X3. An answer is never given for less than a whole order.  When the
    handler returns, there is a database, the request had at least one
    line, every line resolved and asked for at least one unit, and exactly
    one order was appended: it lists the snapshots of the lines in the
    order of the request, carries the customer fields and the notes of the
    request, has the rounded sum of its items as subtotal, and is stored
    under the identifier the answer names. *)
Theorem create_order_success_inversion :
  forall (payload : CreateOrderRequest.t) (w w' : World) (res : OrderCreated),
    create_order payload w = (Ret res, w') ->
    exists (d : Database) (o : Order.t) (oid : ObjectId),
      db w = Some d /\
      CreateOrderRequest.items payload <> [] /\
      Forall (fun line => 1 <= CreateOrderItem.quantity line /\
                          resolves d (CreateOrderItem.product_id line) <> None)
             (CreateOrderRequest.items payload) /\
      res = {| message := "Order created"; created_id := str_oid oid |} /\
      orders_of w' = orders_of w ++ [{| order_id := oid; order_doc := o |}] /\
      Forall2 (snapshot_of d) (CreateOrderRequest.items payload) (Order.items o) /\
      Order.subtotal o = PyFloat.round2 (sum_lines (Order.items o)) /\
      Order.customer_name o = CreateOrderRequest.customer_name payload /\
      Order.customer_phone o = CreateOrderRequest.customer_phone payload /\
      Order.customer_address o = CreateOrderRequest.customer_address payload /\
      Order.notes o = CreateOrderRequest.notes payload.
Proof.
  intros payload w w' res Hrun.
  destruct (create_order_inv _ _ _ _ Hrun)
    as (d & its & Hdb & Hne & Hsnaps & Hwfs & _ & Hres & Hdb').
  eexists d, _, _. split; [exact Hdb | ]. split; [exact Hne | ].
  split.
  { clear Hrun Hne Hdb'. induction Hsnaps as [ | line it ls its' Hs _ IH]; [constructor | ].
    inversion Hwfs as [ | ? ? [Hq _] Hwfs']; subst. constructor; [ | now apply IH].
    destruct Hs as (s & Hr & _ & _ & _ & Hqty). split; [lia | congruence]. }
  split; [exact Hres | ].
  unfold orders_of. rewrite Hdb, Hdb'. cbn. repeat split. exact Hsnaps.
Qed.

Lemma create_order_success_inversion_witness :
  exists (d : Database) (o : Order.t) (oid : ObjectId),
    db seeded_world = Some d /\
    CreateOrderRequest.items (request [CreateOrderItem.mk crepes_id 3]) <> [] /\
    Forall (fun line => 1 <= CreateOrderItem.quantity line /\
                        resolves d (CreateOrderItem.product_id line) <> None)
           (CreateOrderRequest.items (request [CreateOrderItem.mk crepes_id 3])) /\
    {| message := "Order created"; created_id := "000000000000000000000004" |}
      = {| message := "Order created"; created_id := str_oid oid |} /\
    orders_of (snd (create_order (request [CreateOrderItem.mk crepes_id 3]) seeded_world))
      = orders_of seeded_world ++ [{| order_id := oid; order_doc := o |}] /\
    Forall2 (snapshot_of d)
            (CreateOrderRequest.items (request [CreateOrderItem.mk crepes_id 3]))
            (Order.items o) /\
    Order.subtotal o = PyFloat.round2 (sum_lines (Order.items o)) /\
    Order.customer_name o = None /\
    Order.customer_phone o = None /\
    Order.customer_address o = None /\
    Order.notes o = None.
Proof.
  apply (create_order_success_inversion
           (request [CreateOrderItem.mk crepes_id 3]) seeded_world).
  vm_compute. reflexivity.
Defined.

(** X4. The order collection stays well formed.  If every stored order has
    at least one item, quantities of at least 1, prices and a subtotal that
    are [>= 0], and a subtotal equal to the rounded sum of its items, then
    the same holds after any request to create an order, whether it
    succeeds or fails. *)
Theorem create_order_keeps_orders_well_formed :
  forall (payload : CreateOrderRequest.t) (w : World),
    Forall (fun so => well_formed_order (order_doc so)) (orders_of w) ->
    Forall (fun so => well_formed_order (order_doc so))
           (orders_of (snd (create_order payload w))).
Proof.
  intros payload w Hinv.
  destruct (create_order payload w) as [[res | e] w'] eqn:Hrun;
    pose proof (create_order_inv _ _ _ _ Hrun) as H; cbn [snd].
  - destruct H as (d & its & Hdb & Hne & Hsnaps & Hwfs & Hnn & _ & Hdb').
    unfold orders_of in *. rewrite Hdb in Hinv. rewrite Hdb'. cbn.
    apply Forall_app. split; [exact Hinv | ].
    constructor; [ | constructor].
    unfold well_formed_order. cbn [order_doc Order.items Order.subtotal].
    repeat split; try assumption.
    intros Heq. subst its. inversion Hsnaps as [Hnil | ]. congruence.
  - unfold orders_of in *. now rewrite H.
Qed.

Lemma create_order_keeps_orders_well_formed_witness :
  Forall (fun so => well_formed_order (order_doc so))
    (orders_of
       (snd (create_order (request [CreateOrderItem.mk strawberry_id 1])
               (snd (create_order (request [CreateOrderItem.mk crepes_id 3]) seeded_world))))).
Proof.
  apply (create_order_keeps_orders_well_formed
           (request [CreateOrderItem.mk strawberry_id 1])
           (snd (create_order (request [CreateOrderItem.mk crepes_id 3]) seeded_world))).
  apply (create_order_keeps_orders_well_formed
           (request [CreateOrderItem.mk crepes_id 3]) seeded_world).
  cbn. constructor.
Defined.

(* ================================================================== *)
(** ** Order creation: the ways it fails *)
(* ================================================================== *)

(** The lines before the failing one, when the store can serve them. *)
Lemma create_order_stops_after (payload : CreateOrderRequest.t)
    (pre post : list CreateOrderItem.t) (line : CreateOrderItem.t)
    (w w'' : World) (d : Database) (e : exn) :
  db w = Some d ->
  outage d FindOne = None ->
  CreateOrderRequest.items payload = pre ++ line :: post ->
  Forall (orderable d) pre ->
  (forall acc sub,
      create_order_line line acc sub
        {| db := Some d; calls := calls w ++ repeat FindOne (List.length pre) |}
      = (Raise e, w'')) ->
  create_order payload w = (Raise e, w'').
Proof.
  intros Hdb Hout Hitems Hpre Hline.
  destruct (create_order_loop_ok d pre Hout Hpre [] PyFloat.zero (calls w) eq_refl)
    as (its & Hloop & _ & _).
  eapply create_order_stops_at; [exact Hitems | | apply Hline].
  rewrite (world_eta w) at 1. rewrite Hdb. exact Hloop.
Qed.

Lemma repeat_snoc {A} (a : A) (n : nat) : repeat a n ++ [a] = repeat a (S n).
Proof. induction n as [ | n IH]; cbn; [reflexivity | now rewrite IH]. Qed.

(** X5. When the lines are fine and the write of the order fails, the
    error of the store is caught and turned into the 500 whose detail is
    "Failed to create order: " followed by the message of the error.  All
    the lookups were made, the write was tried once, and the database is
    unchanged. *)
Theorem create_order_write_failure :
  forall (payload : CreateOrderRequest.t) (w : World) (d : Database) (msg : string),
    db w = Some d ->
    outage d FindOne = None ->
    outage d CreateDocument = Some msg ->
    CreateOrderRequest.items payload <> [] ->
    Forall (orderable d) (CreateOrderRequest.items payload) ->
    create_order payload w =
      (Raise (HTTPException 500 ("Failed to create order: " ++ msg)),
       {| db := Some d;
          calls := calls w
                   ++ repeat FindOne (List.length (CreateOrderRequest.items payload))
                   ++ [CreateDocument] |}).
Proof.
  intros payload w d msg Hdb Hfind Hwrite Hne Hall.
  destruct (create_order_loop_ok d _ Hfind Hall [] PyFloat.zero (calls w) eq_refl)
    as (its & Hloop & _ & Hnn).
  unfold create_order.
  destruct (CreateOrderRequest.items payload) as [ | l ls] eqn:Hitems; [congruence | ].
  rewrite (world_eta w) at 1. rewrite Hdb.
  unfold bind at 1. rewrite Hloop. cbn [fst snd app].
  unfold bind at 1. unfold lift at 1. unfold OrderSchema.
  apply PyFloatFacts.round2_nonneg in Hnn. unfold nonneg in Hnn. rewrite Hnn.
  unfold create_document. unfold_monad. cbn [db calls]. rewrite Hwrite.
  cbn. rewrite <- app_assoc. reflexivity.
Qed.

Lemma create_order_write_failure_witness :
  create_order (request [CreateOrderItem.mk strawberry_id 2]) read_only_world =
    (Raise (HTTPException 500 "Failed to create order: not primary"),
     {| db := db read_only_world; calls := [FindOne; CreateDocument] |}).
Proof.
  apply (create_order_write_failure
           (request [CreateOrderItem.mk strawberry_id 2]) read_only_world
           {| product := product seeded_database; order := []; next_id := 4;
              outage := failing_write |} "not primary").
  - reflexivity.
  - reflexivity.
  - reflexivity.
  - cbn. discriminate.
  - cbn. constructor; [ | constructor].
    split; [cbn; lia | ]. split; [vm_compute; discriminate | ].
    eexists. split; [vm_compute; reflexivity | ].
    split; [cbn; discriminate | ].
    eexists. split; vm_compute; reflexivity.
Defined.

(** X6. An error of the store during a lookup is not caught: only the
    write is inside the [try].  The request ends with the error of the
    store as it is, a 500 without the "Failed to create order" detail,
    after that one lookup. *)
Theorem create_order_lookup_failure :
  forall (payload : CreateOrderRequest.t) (line : CreateOrderItem.t)
         (rest : list CreateOrderItem.t) (w : World) (d : Database)
         (msg : string) (oid : ObjectId),
    db w = Some d ->
    outage d FindOne = Some msg ->
    CreateOrderRequest.items payload = line :: rest ->
    ObjectId_of_str (CreateOrderItem.product_id line) = Ret oid ->
    create_order payload w =
      (Raise (PyMongoError msg), {| db := Some d; calls := calls w ++ [FindOne] |}) /\
    http_status (PyMongoError msg) = 500.
Proof.
  intros payload line rest w d msg oid Hdb Hout Hitems Hoid.
  split; [ | reflexivity].
  eapply (create_order_stops_at payload [] rest line w w _ ([], PyFloat.zero));
    [exact Hitems | reflexivity | ].
  apply create_order_line_lookup_raises.
  unfold lookup_product, find_one. unfold_monad. rewrite Hdb.
  assert (Ht : truthy (CreateOrderItem.product_id line) = true).
  { destruct (CreateOrderItem.product_id line); [discriminate Hoid | reflexivity]. }
  rewrite Ht, Hoid. cbn. now rewrite Hdb, Hout.
Qed.

Lemma create_order_lookup_failure_witness :
  create_order (request [CreateOrderItem.mk strawberry_id 2]) blind_world =
    (Raise (PyMongoError "connection reset"),
     {| db := db blind_world; calls := [FindOne] |}) /\
  http_status (PyMongoError "connection reset") = 500.
Proof.
  apply (create_order_lookup_failure
           (request [CreateOrderItem.mk strawberry_id 2])
           (CreateOrderItem.mk strawberry_id 2) [] blind_world
           {| product := product seeded_database; order := []; next_id := 4;
              outage := failing_lookup |}
           "connection reset" (Oid strawberry_id)); reflexivity.
Defined.

(** X7. A stored product that the order model refuses (it has no name, or
    its price is negative or not a number) is not answered with a 4xx: the
    constructor of the order item raises a validation error that nothing
    catches, a 500, after the lookups up to that line.  Nothing is
    persisted. *)
Theorem create_order_unsellable_product :
  forall (payload : CreateOrderRequest.t)
         (pre post : list CreateOrderItem.t) (line : CreateOrderItem.t)
         (w : World) (d : Database) (s : Stored) (price : PyFloat.float),
    db w = Some d ->
    outage d FindOne = None ->
    CreateOrderRequest.items payload = pre ++ line :: post ->
    Forall (orderable d) pre ->
    resolves d (CreateOrderItem.product_id line) = Some s ->
    snapshot_price (doc s) = Ret price ->
    PyFloat.of_int (CreateOrderItem.quantity line) <> None ->
    Doc.name (doc s) = None \/ PyFloat.ge price PyFloat.zero = false ->
    create_order payload w =
      (Raise (ValidationError "OrderItem"),
       {| db := Some d; calls := calls w ++ repeat FindOne (S (List.length pre)) |}) /\
    http_status (ValidationError "OrderItem") = 500.
Proof.
  intros payload pre post line w d s price Hdb Hout Hitems Hpre Hres Hprice Hconv Hbad.
  split; [ | reflexivity].
  eapply create_order_stops_after; try eassumption.
  intros acc sub. unfold create_order_line. unfold bind at 1.
  rewrite (lookup_product_found _
             {| db := Some d; calls := calls w ++ repeat FindOne (List.length pre) |}
             d s eq_refl Hout Hres).
  cbn [calls].
  rewrite <- app_assoc, repeat_snoc.
  unfold snapshot_price in Hprice. unfold_monad. rewrite Hprice.
  unfold mul_int.
  destruct (PyFloat.of_int (CreateOrderItem.quantity line)); [ | congruence].
  unfold OrderItemSchema.
  destruct Hbad as [Hn | Hge].
  - now rewrite Hn.
  - rewrite Hge. now destruct (Doc.name (doc s)).
Qed.

Lemma create_order_unsellable_product_witness :
  create_order (request [CreateOrderItem.mk "000000000000000000000000" 1;
                         CreateOrderItem.mk "000000000000000000000002" 1]) odd_world =
    (Raise (ValidationError "OrderItem"),
     {| db := Some odd_database; calls := [FindOne; FindOne] |}) /\
  http_status (ValidationError "OrderItem") = 500.
Proof.
  apply (create_order_unsellable_product
           (request [CreateOrderItem.mk "000000000000000000000000" 1;
                     CreateOrderItem.mk "000000000000000000000002" 1])
           [CreateOrderItem.mk "000000000000000000000000" 1] []
           (CreateOrderItem.mk "000000000000000000000002" 1)
           odd_world odd_database
           {| _id := mint 2; doc := refund |} (PyFloat.of_Z (-5000))).
  - reflexivity.
  - reflexivity.
  - reflexivity.
  - constructor; [ | constructor].
    split; [cbn; lia | ]. split; [vm_compute; discriminate | ].
    eexists. split; [vm_compute; reflexivity | ].
    split; [cbn; discriminate | ].
    eexists. split; vm_compute; reflexivity.
  - vm_compute. reflexivity.
  - vm_compute. reflexivity.
  - vm_compute. discriminate.
  - right. vm_compute. reflexivity.
Defined.

(** X8. The handler fails fast and names the first reference that is
    missing: when the lines before it can be served and a well-formed
    reference has no stored product, the answer is the 404 with that
    reference, whatever the lines after it hold, and the store was asked
    once per line up to and including it. *)
Theorem create_order_first_missing_reference :
  forall (payload : CreateOrderRequest.t)
         (pre post : list CreateOrderItem.t) (line : CreateOrderItem.t)
         (w : World) (d : Database) (oid : ObjectId),
    db w = Some d ->
    outage d FindOne = None ->
    CreateOrderRequest.items payload = pre ++ line :: post ->
    Forall (orderable d) pre ->
    ObjectId_of_str (CreateOrderItem.product_id line) = Ret oid ->
    resolves d (CreateOrderItem.product_id line) = None ->
    create_order payload w =
      (Raise (HTTPException 404
                ("Product not found: " ++ CreateOrderItem.product_id line)),
       {| db := Some d; calls := calls w ++ repeat FindOne (S (List.length pre)) |}).
Proof.
  intros payload pre post line w d oid Hdb Hout Hitems Hpre Hoid Hres.
  eapply create_order_stops_after; try eassumption.
  intros acc sub. rewrite <- repeat_snoc, app_assoc.
  apply create_order_line_not_found.
  apply (lookup_product_missing _
           {| db := Some d; calls := calls w ++ repeat FindOne (List.length pre) |}
           d oid eq_refl Hout Hoid Hres).
Qed.

Lemma create_order_first_missing_reference_witness :
  create_order (request [CreateOrderItem.mk strawberry_id 1;
                         CreateOrderItem.mk "0000000000000000000000ff" 1;
                         CreateOrderItem.mk "tea-42" 1]) seeded_world =
    (Raise (HTTPException 404 "Product not found: 0000000000000000000000ff"),
     {| db := Some seeded_database;
        calls := [CountDocuments; InsertMany; FindOne; FindOne] |}).
Proof.
  apply (create_order_first_missing_reference
           (request [CreateOrderItem.mk strawberry_id 1;
                     CreateOrderItem.mk "0000000000000000000000ff" 1;
                     CreateOrderItem.mk "tea-42" 1])
           [CreateOrderItem.mk strawberry_id 1] [CreateOrderItem.mk "tea-42" 1]
           (CreateOrderItem.mk "0000000000000000000000ff" 1)
           seeded_world seeded_database (Oid "0000000000000000000000ff")).
  - reflexivity.
  - reflexivity.
  - reflexivity.
  - constructor; [ | constructor].
    split; [cbn; lia | ]. split; [vm_compute; discriminate | ].
    eexists. split; [vm_compute; reflexivity | ].
    split; [cbn; discriminate | ].
    eexists. split; vm_compute; reflexivity.
  - reflexivity.
  - vm_compute. reflexivity.
Defined.

(** X9. Without a database the handler never succeeds and never raises
    anything but its own two errors: the 400 for an empty request, the 404
    that names the reference of the first line otherwise, whatever that
    reference is (a malformed one is not parsed).  The world is
    untouched. *)
Theorem create_order_without_database :
  forall (payload : CreateOrderRequest.t) (w : World),
    db w = None ->
    create_order payload w =
      (Raise match CreateOrderRequest.items payload with
             | [] => HTTPException 400 "No items provided"
             | line :: _ =>
                 HTTPException 404
                   ("Product not found: " ++ CreateOrderItem.product_id line)
             end, w).
Proof.
  intros payload w Hdb.
  destruct (CreateOrderRequest.items payload) as [ | line rest] eqn:Hitems.
  - unfold create_order. now rewrite Hitems.
  - now apply (create_order_unconfigured payload line rest).
Qed.

Lemma create_order_without_database_witness :
  create_order (request [CreateOrderItem.mk "tea-42" 1]) unconfigured_world =
    (Raise (HTTPException 404 "Product not found: tea-42"), unconfigured_world).
Proof.
  apply (create_order_without_database
           (request [CreateOrderItem.mk "tea-42" 1]) unconfigured_world).
  reflexivity.
Defined.

(** The snapshot of a line records the reference in lower case. *)
Lemma snapshot_product_id (d : Database) (line : CreateOrderItem.t) (it : OrderItem.t) :
  snapshot_of d line it ->
  OrderItem.product_id it = lower_string (CreateOrderItem.product_id line).
Proof.
  intros (s & Hres & Hid & _). rewrite Hid. unfold resolves in Hres.
  destruct (truthy _); [ | discriminate].
  unfold ObjectId_of_str in Hres.
  destruct (_ && _)%bool; [ | discriminate].
  apply find_some in Hres. destruct Hres as [_ Heq].
  unfold oid_eqb in Heq. cbn in Heq. now apply String.eqb_eq in Heq.
Qed.

(** X10. An order records the identifiers as the store prints them, not as
    the request spelled them: a reference is read in either letter case,
    and the item of a persisted order carries it in lower case. *)
Theorem create_order_records_canonical_ids :
  forall (payload : CreateOrderRequest.t) (w w' : World) (res : OrderCreated),
    create_order payload w = (Ret res, w') ->
    exists (o : Order.t) (oid : ObjectId),
      orders_of w' = orders_of w ++ [{| order_id := oid; order_doc := o |}] /\
      map OrderItem.product_id (Order.items o) =
      map (fun line => lower_string (CreateOrderItem.product_id line))
          (CreateOrderRequest.items payload).
Proof.
  intros payload w w' res Hrun.
  destruct (create_order_inv _ _ _ _ Hrun)
    as (d & its & Hdb & _ & Hsnaps & _ & _ & _ & Hdb').
  eexists _, _. unfold orders_of. rewrite Hdb, Hdb'. cbn.
  split; [reflexivity | ]. cbn [Order.items].
  clear Hrun Hdb'. induction Hsnaps as [ | line it ls its' Hs _ IH]; [reflexivity | ].
  cbn. now rewrite IH, (snapshot_product_id d line it Hs).
Qed.

Lemma create_order_records_canonical_ids_witness :
  exists (o : Order.t) (oid : ObjectId),
    orders_of (snd (create_order (request [CreateOrderItem.mk "00000000000000000000000A" 1])
                      lettered_world))
      = orders_of lettered_world ++ [{| order_id := oid; order_doc := o |}] /\
    map OrderItem.product_id (Order.items o) = ["00000000000000000000000a"].
Proof.
  apply (create_order_records_canonical_ids
           (request [CreateOrderItem.mk "00000000000000000000000A" 1]) lettered_world
           (snd (create_order (request [CreateOrderItem.mk "00000000000000000000000A" 1])
                   lettered_world))
           {| message := "Order created"; created_id := "00000000000000000000000b" |}).
  vm_compute. reflexivity.
Defined.

(* ================================================================== *)
(** ** Seeding: every outcome *)
(* ================================================================== *)

(** The five ways the seeder ends. *)
Lemma seed_cases (w : World) :
  (db w = None /\ seed_products_if_empty w = (Ret tt, w)) \/
  exists d,
    db w = Some d /\
    ((exists msg,
         outage d CountDocuments = Some msg /\
         seed_products_if_empty w =
           (Raise (PyMongoError msg),
            {| db := Some d; calls := calls w ++ [CountDocuments] |})) \/
     (outage d CountDocuments = None /\ product d <> [] /\
      seed_products_if_empty w =
        (Ret tt, {| db := Some d; calls := calls w ++ [CountDocuments] |})) \/
     (exists msg,
         outage d CountDocuments = None /\ product d = [] /\
         outage d InsertMany = Some msg /\
         seed_products_if_empty w =
           (Raise (PyMongoError msg),
            {| db := Some d; calls := calls w ++ [CountDocuments; InsertMany] |})) \/
     (outage d CountDocuments = None /\ product d = [] /\
      outage d InsertMany = None /\
      seed_products_if_empty w =
        (Ret tt,
         {| db := Some (with_product d (assign_ids (next_id d) sample_products)
                                       (next_id d + 4));
            calls := calls w ++ [CountDocuments; InsertMany] |}))).
Proof.
  destruct (db w) as [d | ] eqn:Hdb.
  - right. exists d. split; [reflexivity | ].
    destruct (outage d CountDocuments) as [msg | ] eqn:Hcount.
    + left. exists msg. split; [reflexivity | ].
      unfold seed_products_if_empty. unfold bind at 1.
      rewrite (db_is_None_configured w d Hdb). unfold bind at 1.
      unfold count_documents, store_call. now rewrite Hdb, Hcount.
    + right. destruct (product d) as [ | p ps] eqn:Hprod.
      * right. destruct (outage d InsertMany) as [msg | ] eqn:Hins.
        -- left. exists msg. repeat split.
           unfold seed_products_if_empty. unfold bind at 1.
           rewrite (db_is_None_configured w d Hdb). unfold bind at 1.
           rewrite (count_documents_ok w d Hdb Hcount), Hprod.
           cbn [List.length Z.of_nat Z.ltb Z.compare].
           unfold insert_many, store_call. cbn [db calls]. rewrite Hins.
           now rewrite <- app_assoc.
        -- right. repeat split. now apply seed_empty.
      * left. repeat split; [discriminate | ].
        apply seed_nonempty; [exact Hdb | exact Hcount | ].
        rewrite Hprod. discriminate.
  - left. split; [reflexivity | ].
    unfold seed_products_if_empty, bind, db_is_None. now rewrite Hdb.
Qed.

Lemma sample_products_valid :
  Forall (fun p => exists r, ProductSchema p = Ret r) sample_products.
Proof.
  unfold sample_products. repeat constructor; eexists; vm_compute; reflexivity.
Qed.

Lemma assign_ids_Forall_doc (P : Doc.t -> Prop) (docs : list Doc.t) :
  Forall P docs -> forall n, Forall (fun s => P (doc s)) (assign_ids n docs).
Proof.
  intros H. induction H as [ | p ps Hp _ IH]; intros n; cbn; constructor; auto.
Qed.

(** X11. What a call of the seeder leaves behind.  When it returns on a
    configured store, the product collection is not empty, so the next call
    finds something to count and does not insert.  When it raises, the
    exception is the error of the store and the database is the one it
    found: a failed insertion leaves the collection empty and the next call
    tries again. *)
Theorem seed_postcondition :
  forall (w w' : World) (r : Result unit),
    seed_products_if_empty w = (r, w') ->
    match r with
    | Ret _ =>
        (db w = None /\ w' = w) \/
        (exists d', db w' = Some d' /\ product d' <> [])
    | Raise e =>
        db w' = db w /\ exists msg, e = PyMongoError msg
    end.
Proof.
  intros w w' r Hrun.
  destruct (seed_cases w) as [[Hdb H] | (d & Hdb & [(msg & _ & H) | [(_ & Hne & H)
    | [(msg & _ & _ & _ & H) | (_ & _ & _ & H)]]])];
    rewrite H in Hrun; apply pair_equal_spec in Hrun; destruct Hrun as [<- <-].
  - now left.
  - cbn [db]. split; [now rewrite Hdb | eauto].
  - right. exists d. now split.
  - cbn [db]. split; [now rewrite Hdb | eauto].
  - right. eexists. split; [reflexivity | ].
    cbn [product with_product]. unfold sample_products. cbn [assign_ids]. discriminate.
Qed.

Lemma seed_postcondition_witness :
  (db fresh_world = None /\ seeded_world = fresh_world) \/
  (exists d', db seeded_world = Some d' /\ product d' <> []).
Proof.
  apply (seed_postcondition fresh_world seeded_world (Ret tt)). reflexivity.
Defined.

(** X12. The seeder only adds, and only the sample set.  After any call,
    in any world, the orders are untouched, the products that were stored
    are still there in the same order, and what was added is either nothing
    or, on a collection that was empty, the sample products, each of which
    passes the product model of [schemas.py]. *)
Theorem seed_only_adds_valid_products :
  forall (w : World),
    orders_of (snd (seed_products_if_empty w)) = orders_of w /\
    exists added,
      products_of (snd (seed_products_if_empty w)) = products_of w ++ added /\
      (added = [] \/ (products_of w = [] /\ map doc added = sample_products)) /\
      Forall (fun s => exists r, ProductSchema (doc s) = Ret r) added.
Proof.
  intros w. split; [apply seed_keeps_orders | ].
  destruct (seed_cases w) as [[Hdb H] | (d & Hdb & [(msg & _ & H) | [(_ & Hne & H)
    | [(msg & _ & _ & _ & H) | (_ & Hempty & _ & H)]]])];
    rewrite H; unfold products_of; cbn [snd db]; rewrite Hdb.
  1-4: exists []; rewrite app_nil_r; repeat split; auto.
  exists (assign_ids (next_id d) sample_products).
  cbn [product with_product]. rewrite Hempty. repeat split.
  - right. split; [reflexivity | apply assign_ids_doc].
  - apply (assign_ids_Forall_doc (fun p => exists r, ProductSchema p = Ret r)).
    apply sample_products_valid.
Qed.

(* ================================================================== *)
(** ** Listing: every outcome *)
(* ================================================================== *)

(** On a configured store the listing is the seeding followed by the
    query. *)
Lemma list_products_configured (category q : option string) (w : World) (d : Database) :
  db w = Some d ->
  list_products category q w =
    match seed_products_if_empty w with
    | (Ret _, w1) =>
        match find (filter_dict_of category q) w1 with
        | (Ret found, w2) => (Ret (map serialize found), w2)
        | (Raise e, w2) => (Raise e, w2)
        end
    | (Raise e, w1) => (Raise e, w1)
    end.
Proof.
  intros Hdb. unfold list_products. unfold bind at 1.
  rewrite (db_is_None_configured w d Hdb). unfold bind at 1.
  destruct (seed_products_if_empty w) as [[[] | e] w1]; [ | reflexivity].
  unfold bind, ret. destruct (find _ w1) as [[found | e] w2]; reflexivity.
Qed.

Lemma list_products_unconfigured (category q : option string) (w : World) :
  db w = None -> list_products category q w = (Ret fallback, w).
Proof.
  intros Hdb. unfold list_products, bind, db_is_None. now rewrite Hdb.
Qed.

Lemma find_inv (f : Filter) (w w' : World) (d : Database) (found : list Stored) :
  db w = Some d ->
  find f w = (Ret found, w') ->
  outage d Find = None /\
  forallb entry_interpreted f = true /\
  found = filter (fun s => filter_matches f (doc s)) (product d) /\
  w' = {| db := Some d; calls := calls w ++ [Find] |}.
Proof.
  intros Hdb. unfold find, store_call. rewrite Hdb.
  destruct (outage d Find); [discriminate | ].
  destruct (forallb entry_interpreted f); [ | discriminate].
  intros H. apply pair_equal_spec in H. destruct H as [[= <-] <-]. auto.
Qed.

(** A listing that returned on a configured store: the seeding returned and
    left a non-empty collection behind, and the items are the stored
    products the filter keeps. *)
Lemma list_products_inv (category q : option string) (w w' : World) (d : Database)
    (items : list Item) :
  db w = Some d ->
  list_products category q w = (Ret items, w') ->
  exists w1 d1,
    seed_products_if_empty w = (Ret tt, w1) /\
    db w1 = Some d1 /\
    product d1 <> [] /\
    outage d1 = outage d /\
    order d1 = order d /\
    (product d1 = product d \/
     (product d = [] /\ product d1 = assign_ids (next_id d) sample_products)) /\
    outage d CountDocuments = None /\
    outage d Find = None /\
    forallb entry_interpreted (filter_dict_of category q) = true /\
    items = map serialize
              (filter (fun s => filter_matches (filter_dict_of category q) (doc s))
                      (product d1)) /\
    w' = {| db := Some d1; calls := calls w1 ++ [Find] |}.
Proof.
  intros Hdb. rewrite (list_products_configured category q w d Hdb).
  destruct (seed_cases w) as [[Hnone _] | (d0 & Hdb0 & Hcases)]; [congruence | ].
  assert (d0 = d) by congruence. subst d0.
  destruct Hcases as [(msg & _ & H) | [(Hcount & Hne & H)
    | [(msg & _ & _ & _ & H) | (Hcount & Hempty & _ & H)]]]; rewrite H;
    try discriminate.
  - destruct (find _ _) as [[found | e] w2] eqn:Hfind; [ | discriminate].
    intros Hpair. apply pair_equal_spec in Hpair. destruct Hpair as [[= <-] <-].
    eapply find_inv in Hfind; [ | reflexivity]. destruct Hfind as (Hout & Hint & -> & ->).
    eexists _, d. repeat split; auto.
  - destruct (find _ _) as [[found | e] w2] eqn:Hfind; [ | discriminate].
    intros Hpair. apply pair_equal_spec in Hpair. destruct Hpair as [[= <-] <-].
    eapply find_inv in Hfind; [ | reflexivity]. destruct Hfind as (Hout & Hint & -> & ->).
    eexists _, _. repeat split; auto.
    cbn [product with_product]. unfold sample_products. cbn [assign_ids]. discriminate.
Qed.

(** The filter document of the handler, entry by entry. *)
Lemma filter_dict_interpreted (category q : option string) :
  match q with Some q' => literal q' | None => True end ->
  forallb entry_interpreted (filter_dict_of category q) = true.
Proof.
  intros Hlit. unfold filter_dict_of.
  destruct category as [c | ]; [destruct (truthy c) | ];
    (destruct q as [q' | ]; [destruct (truthy q') | ]);
    cbn [app forallb entry_interpreted cond_interpreted];
    rewrite ?(compile_literal _ Hlit); reflexivity.
Qed.

Lemma filter_dict_matches (category q : option string) (p : Doc.t) :
  match q with Some q' => literal q' | None => True end ->
  filter_matches (filter_dict_of category q) p = listed_by category q p.
Proof.
  intros Hlit. unfold filter_dict_of, listed_by, filter_matches.
  assert (Hcat : forall c,
             existsb (String.eqb c) (field_values "category" p)
             = match Doc.category p with Some c' => String.eqb c c' | None => false end).
  { intros c. change (field_values "category" p)
      with (match Doc.category p with Some s => [s] | None => [] end).
    destruct (Doc.category p); cbn; [apply orb_false_r | reflexivity]. }
  destruct category as [c | ]; [destruct (truthy c) | ];
    (destruct q as [q' | ]; [destruct (truthy q') | ]);
    cbn [app forallb];
    rewrite ?query_entry_matches by exact Hlit;
    cbn [entry_matches cond_matches];
    rewrite ?Hcat, ?andb_true_r; reflexivity.
Qed.

(* ================================================================== *)
(** ** Listing: filters, repetition, and what can be ordered *)
(* ================================================================== *)

Lemma filter_all {A} (l : list A) : filter (fun _ => true) l = l.
Proof. induction l as [ | a l IH]; cbn; [reflexivity | now rewrite IH]. Qed.

(** X13. The first listing of an empty catalog shows the sample set: on a
    configured store that answers and holds no product, a listing without
    filters seeds the collection and returns the four sample products, each
    with the identifier it was stored under. *)
Theorem list_products_first_listing :
  forall (w : World) (d : Database),
    db w = Some d ->
    product d = [] ->
    outage d CountDocuments = None ->
    outage d InsertMany = None ->
    outage d Find = None ->
    list_products None None w =
      (Ret (map serialize (assign_ids (next_id d) sample_products)),
       {| db := Some (with_product d (assign_ids (next_id d) sample_products)
                                     (next_id d + 4));
          calls := calls w ++ [CountDocuments; InsertMany; Find] |}) /\
    map item (map serialize (assign_ids (next_id d) sample_products)) = sample_products.
Proof.
  intros w d Hdb Hempty Hcount Hins Hfind. split.
  - rewrite (list_products_configured None None w d Hdb).
    rewrite (seed_empty w d Hdb Hcount Hins Hempty).
    erewrite find_ok; [ | reflexivity | exact Hfind | reflexivity].
    cbn [product with_product calls filter_dict_of filter_matches forallb].
    rewrite filter_all, <- app_assoc. reflexivity.
  - rewrite map_map. cbn [item serialize]. apply assign_ids_doc.
Qed.

Lemma list_products_first_listing_witness :
  list_products None None fresh_world =
    (Ret (map serialize (assign_ids 0 sample_products)),
     {| db := Some seeded_database; calls := [CountDocuments; InsertMany; Find] |}) /\
  map item (map serialize (assign_ids 0 sample_products)) = sample_products.
Proof.
  apply (list_products_first_listing fresh_world empty_database); reflexivity.
Defined.

(** X14. The two filters of a listing.  On a configured store that
    answers, with a query free of metacharacters, the listing is, in stored
    order, the products of the seeded catalog that pass both filters: a
    non-empty [category] has to equal the product's category, letter for
    letter, and a non-empty [q] has to occur in the name, the description or
    a tag.  A parameter that is missing or the empty string filters
    nothing. *)
Theorem list_products_filters :
  forall (category q : option string) (w : World) (d : Database),
    db w = Some d ->
    outage d CountDocuments = None ->
    outage d InsertMany = None ->
    outage d Find = None ->
    match q with Some q' => literal q' | None => True end ->
    exists (w1 w' : World) (d1 : Database),
      seed_products_if_empty w = (Ret tt, w1) /\
      db w1 = Some d1 /\
      list_products category q w =
        (Ret (map serialize
                (filter (fun s => listed_by category q (doc s)) (product d1))), w').
Proof.
  intros category q w d Hdb Hcount Hins Hfind Hlit.
  rewrite (list_products_configured category q w d Hdb).
  destruct (seed_cases w) as [[Hnone _] | (d0 & Hdb0 & Hcases)]; [congruence | ].
  assert (d0 = d) by congruence. subst d0.
  destruct Hcases as [(msg & Hc & _) | [(_ & Hne & H)
    | [(msg & _ & _ & Hi & _) | (_ & Hempty & _ & H)]]]; try congruence;
    rewrite H;
    (erewrite find_ok;
     [ | reflexivity | exact Hfind | now apply filter_dict_interpreted]);
    eexists _, _, _; (split; [reflexivity | ]); (split; [reflexivity | ]);
    (apply pair_equal_spec; split; [ | reflexivity]);
    do 2 f_equal; apply filter_ext; intros s; now apply filter_dict_matches.
Qed.

Lemma list_products_filters_witness :
  exists (w1 w' : World) (d1 : Database),
    seed_products_if_empty fresh_world = (Ret tt, w1) /\
    db w1 = Some d1 /\
    list_products (Some "Drinks") (Some "milk") fresh_world =
      (Ret (map serialize
              (filter (fun s => listed_by (Some "Drinks") (Some "milk") (doc s))
                      (product d1))), w').
Proof.
  apply (list_products_filters (Some "Drinks") (Some "milk") fresh_world empty_database);
    reflexivity.
Defined.

(** The category is compared as it is written, the query is not: "drinks"
    lists nothing, "MILK" in "Drinks" lists the two teas. *)
Example list_products_category_is_exact :
  fst (list_products (Some "drinks") None fresh_world) = Ret [] /\
  (exists items,
      fst (list_products (Some "Drinks") (Some "MILK") fresh_world) = Ret items /\
      map (fun it => Doc.name (item it)) items
      = [Some "Strawberry Bubble Tea"; Some "Classic Milk Tea"]).
Proof. split; [ | eexists; split]; vm_compute; reflexivity. Qed.

(** X15. A configured store never lists anything but its own products.
    For any category and for a query that holds no metacharacter other
    than [.], every item of a listing that returned is a product of the
    collection as the listing left it, rendered with its stored
    identifier; the static sample of the unconfigured case never shows
    up. *)
Theorem list_products_from_store :
  forall (category q : option string) (w w' : World) (d : Database) (items : list Item),
    db w = Some d ->
    interpreted_query q ->
    list_products category q w = (Ret items, w') ->
    exists d',
      db w' = Some d' /\
      forall it, In it items ->
        exists s, In s (product d') /\
                  item_id it = Some (str_oid (_id s)) /\
                  item it = doc s.
Proof.
  intros category q w w' d items Hdb _ Hrun.
  destruct (list_products_inv _ _ _ _ _ _ Hdb Hrun)
    as (w1 & d1 & _ & _ & _ & _ & _ & _ & _ & _ & _ & -> & ->).
  exists d1. split; [reflexivity | ].
  intros it Hin. apply in_map_iff in Hin. destruct Hin as (s & <- & Hs).
  apply filter_In in Hs. exists s. now repeat split.
Qed.

Lemma list_products_from_store_witness :
  exists d',
    db (snd (list_products None (Some "sweet") fresh_world)) = Some d' /\
    forall it,
      In it (map serialize
               (filter (fun s => listed_by None (Some "sweet") (doc s))
                       (product seeded_database))) ->
      exists s, In s (product d') /\
                item_id it = Some (str_oid (_id s)) /\
                item it = doc s.
Proof.
  apply (list_products_from_store None (Some "sweet") fresh_world
           (snd (list_products None (Some "sweet") fresh_world)) empty_database).
  - reflexivity.
  - cbn. discriminate.
  - vm_compute. reflexivity.
Defined.

(** X16. Listing is repeatable.  For any category and for a query that
    holds no metacharacter other than [.], when a listing returned, the
    same listing asked again in the world it left, of a store that
    answers the calls it answered before, returns the same items and
    changes nothing in the database: the second call does not seed
    again. *)
Theorem list_products_repeatable :
  forall (category q : option string) (w w1 : World) (items : list Item),
    interpreted_query q ->
    list_products category q w = (Ret items, w1) ->
    exists w2,
      list_products category q w1 = (Ret items, w2) /\
      db w2 = db w1.
Proof.
  intros category q w w1 items _ Hrun.
  destruct (db w) as [d | ] eqn:Hdb.
  - destruct (list_products_inv _ _ _ _ _ _ Hdb Hrun)
      as (w0 & d1 & _ & _ & Hne & Hout & _ & _ & Hcount & Hfind & Hint & -> & ->).
    erewrite list_products_configured; [ | reflexivity].
    erewrite seed_nonempty;
      [ | reflexivity | now rewrite Hout | exact Hne].
    erewrite find_ok;
      [ | reflexivity | now rewrite Hout | exact Hint].
    eexists. split; reflexivity.
  - rewrite (list_products_unconfigured category q w Hdb) in Hrun.
    apply pair_equal_spec in Hrun. destruct Hrun as [[= <-] <-].
    exists w. split; [now apply list_products_unconfigured | reflexivity].
Qed.

Lemma list_products_repeatable_witness :
  exists w2,
    list_products (Some "Snacks") None
      (snd (list_products (Some "Snacks") None fresh_world))
    = (fst (list_products (Some "Snacks") None fresh_world), w2) /\
    db w2 = db (snd (list_products (Some "Snacks") None fresh_world)).
Proof.
  apply (list_products_repeatable (Some "Snacks") None fresh_world
           (snd (list_products (Some "Snacks") None fresh_world))
           (map serialize
              (filter (fun s => listed_by (Some "Snacks") None (doc s))
                      (product seeded_database)))).
  - exact I.
  - vm_compute. reflexivity.
Defined.

(* ================================================================== *)
(** ** Identifiers the store mints *)
(* ================================================================== *)

Section Hex.

Local Open Scope string_scope.

Lemma string_length_app (a b : string) :
  String.length (a ++ b) = (String.length a + String.length b)%nat.
Proof. induction a as [ | c a IH]; cbn; [reflexivity | now rewrite IH]. Qed.

Lemma forallb_string_app (f : ascii -> bool) (a b : string) :
  forallb_string f (a ++ b) = forallb_string f a && forallb_string f b.
Proof.
  induction a as [ | c a IH]; cbn; [reflexivity | now rewrite IH, andb_assoc].
Qed.

Lemma lower_string_app (a b : string) :
  lower_string (a ++ b) = lower_string a ++ lower_string b.
Proof. induction a as [ | c a IH]; cbn; [reflexivity | now rewrite IH]. Qed.

Lemma hex_digit_hex (d : N) :
  is_hex (hex_digit d) = true /\ lower (hex_digit d) = hex_digit d.
Proof.
  destruct d as [ | p]; [split; reflexivity | ].
  do 4 (destruct p as [p | p | ]; try (split; reflexivity)).
Qed.

Lemma hex_of_N_spec (k : nat) :
  forall n,
    String.length (hex_of_N k n) = k /\
    forallb_string is_hex (hex_of_N k n) = true /\
    lower_string (hex_of_N k n) = hex_of_N k n.
Proof.
  induction k as [ | k IH]; intros n; cbn [hex_of_N]; [repeat split | ].
  destruct (IH (n / 16)%N) as (Hlen & Hhex & Hlow).
  destruct (hex_digit_hex (n mod 16)%N) as [Hd Hl].
  rewrite string_length_app, forallb_string_app, lower_string_app, Hlen, Hhex, Hlow.
  cbn. rewrite Hd, Hl. repeat split. lia.
Qed.

(** [ObjectId(str(oid)) == oid] for the identifiers the store mints. *)
Lemma mint_canonical (n : N) : ObjectId_of_str (str_oid (mint n)) = Ret (mint n).
Proof.
  unfold mint, ObjectId_of_str. cbn [str_oid].
  destruct (hex_of_N_spec 24 n) as (Hlen & Hhex & Hlow).
  now rewrite Hlen, Hhex, Hlow.
Qed.

End Hex.

Lemma assign_ids_canonical (docs : list Doc.t) :
  forall n, Forall canonical_id (assign_ids n docs).
Proof.
  induction docs as [ | p ps IH]; intros n; cbn; constructor; auto.
  apply mint_canonical.
Qed.

Lemma sample_products_sellable : Forall sellable sample_products.
Proof.
  unfold sample_products.
  repeat constructor;
    (eapply sellable_int_price;
     [cbn; discriminate | reflexivity | split; [lia | reflexivity]]).
Qed.

(** The seeder keeps a catalog in order. *)
Lemma seed_keeps_catalog_ok (w w1 : World) (d d1 : Database) :
  db w = Some d ->
  catalog_ok d ->
  seed_products_if_empty w = (Ret tt, w1) ->
  db w1 = Some d1 ->
  catalog_ok d1 /\ outage d1 = outage d.
Proof.
  intros Hdb Hok Hseed Hdb1.
  destruct (seed_cases w) as [[Hnone _] | (d0 & Hdb0 & Hcases)]; [congruence | ].
  assert (d0 = d) by congruence. subst d0.
  destruct Hcases as [(msg & _ & H) | [(_ & _ & H)
    | [(msg & _ & _ & _ & H) | (_ & _ & _ & H)]]];
    rewrite H in Hseed; try discriminate;
    apply pair_equal_spec in Hseed; destruct Hseed as [_ <-];
    cbn [db] in Hdb1; injection Hdb1 as <-.
  - now split.
  - split; [ | reflexivity]. unfold catalog_ok. cbn [product with_product].
    apply Forall_forall. intros s Hs. split.
    + pose proof (assign_ids_canonical sample_products (next_id d)) as Hc.
      rewrite Forall_forall in Hc. now apply Hc.
    + pose proof (assign_ids_Forall_doc sellable _ sample_products_sellable (next_id d))
        as Hsell.
      rewrite Forall_forall in Hsell. now apply Hsell.
Qed.

(** In a catalog that is in order, the identifier a product is listed
    under resolves, to a product that can be sold. *)
Lemma listed_id_resolves (d : Database) (s : Stored) :
  catalog_ok d ->
  In s (product d) ->
  exists s', resolves d (str_oid (_id s)) = Some s' /\ sellable (doc s').
Proof.
  intros Hok Hin. unfold catalog_ok in Hok. rewrite Forall_forall in Hok.
  destruct (Hok s Hin) as [Hcan _]. unfold canonical_id in Hcan.
  unfold resolves. rewrite Hcan.
  assert (Ht : truthy (str_oid (_id s)) = true).
  { destruct (str_oid (_id s)); [discriminate Hcan | reflexivity]. }
  rewrite Ht.
  destruct (List.find (fun s0 => oid_eqb (_id s0) (_id s)) (product d)) as [s' | ] eqn:Hfind.
  - exists s'. split; [reflexivity | ].
    apply find_some in Hfind. now apply Hok.
  - exfalso. apply find_none with (x := s) in Hfind; [ | exact Hin].
    unfold oid_eqb in Hfind. now rewrite String.eqb_refl in Hfind.
Qed.

(* ================================================================== *)
(** ** From a listing to an order *)
(* ================================================================== *)

(** X18. What is listed can be ordered.  On a store whose lookups and
    order writes succeed and whose catalog is in order (identifiers as the
    store mints them, products with a name and a price that is [>= 0]), take
    any item of a listing that returned, for any category and a query that
    holds no metacharacter other than [.]: an order for 1 to [2^63 - 1]
    units of the identifier the item is listed under, placed in the world
    the listing left, is created. *)
Theorem listed_products_can_be_ordered :
  forall (category q : option string) (w w1 : World) (d : Database)
         (items : list Item) (it : Item) (product_id : string) (quantity : Z),
    db w = Some d ->
    catalog_ok d ->
    outage d FindOne = None ->
    outage d CreateDocument = None ->
    interpreted_query q ->
    list_products category q w = (Ret items, w1) ->
    In it items ->
    item_id it = Some product_id ->
    1 <= quantity < 2 ^ 63 ->
    exists (res : OrderCreated) (w2 : World),
      create_order (request [CreateOrderItem.mk product_id quantity]) w1 = (Ret res, w2) /\
      List.length (orders_of w2) = S (List.length (orders_of w1)).
Proof.
  intros category q w w1 d items it product_id quantity
         Hdb Hok Hfind Hwrite _ Hrun Hin Hid Hq.
  destruct (list_products_inv _ _ _ _ _ _ Hdb Hrun)
    as (w0 & d1 & Hseed & Hdb0 & _ & _ & _ & _ & _ & _ & _ & -> & ->).
  destruct (seed_keeps_catalog_ok _ _ _ _ Hdb Hok Hseed Hdb0) as [Hok1 Hout].
  apply in_map_iff in Hin. destruct Hin as (s & <- & Hs).
  apply filter_In in Hs. destruct Hs as [Hs _].
  cbn in Hid. injection Hid as <-.
  destruct (listed_id_resolves d1 s Hok1 Hs) as (s' & Hres & Hsell).
  assert (Hord : orderable d1 (CreateOrderItem.mk (str_oid (_id s)) quantity)).
  { apply (orderable_in_range d1 _ s'); [ | exact Hres | exact Hsell].
    cbn [CreateOrderItem.quantity].
    assert (Hpow : 2 ^ 63 < 2 ^ 1023) by (apply Z.pow_lt_mono_r; lia). lia. }
  destruct (create_order_ok (request [CreateOrderItem.mk (str_oid (_id s)) quantity])
              {| db := Some d1; calls := calls w0 ++ [Find] |} d1 eq_refl)
    as (its & _ & Hcreate).
  - now rewrite Hout.
  - now rewrite Hout.
  - cbn. discriminate.
  - cbn. constructor; [exact Hord | constructor].
  - eexists _, _. split; [exact Hcreate | ].
    unfold orders_of. cbn [db order with_order]. rewrite List.length_app. cbn. lia.
Qed.

Lemma listed_products_can_be_ordered_witness :
  exists (res : OrderCreated) (w2 : World),
    create_order (request [CreateOrderItem.mk crepes_id 12])
                 (snd (list_products (Some "Dessert") None fresh_world)) = (Ret res, w2) /\
    List.length (orders_of w2)
    = S (List.length (orders_of (snd (list_products (Some "Dessert") None fresh_world)))).
Proof.
  apply (listed_products_can_be_ordered (Some "Dessert") None fresh_world
           (snd (list_products (Some "Dessert") None fresh_world)) empty_database
           (map serialize
              (filter (fun s => listed_by (Some "Dessert") None (doc s))
                      (product seeded_database)))
           {| item_id := Some crepes_id; item := nth 3 sample_products free_sample |}
           crepes_id 12).
  - reflexivity.
  - constructor.
  - reflexivity.
  - reflexivity.
  - exact I.
  - vm_compute. reflexivity.
  - vm_compute. left. reflexivity.
  - reflexivity.
  - split; [lia | reflexivity].
Defined.

(* ================================================================== *)
(** ** The product model and the categories *)
(* ================================================================== *)

(** X20. A document that passes the product model of [schemas.py] can be
    sold by the order handler: it has the name and the price ([>= 0], as a
    float) that the handler copies into an order item. *)
Theorem product_model_sellable :
  forall (p : Doc.t) (r : Product.t),
    ProductSchema p = Ret r ->
    sellable p /\
    Doc.name p = Some (Product.name r) /\
    snapshot_price p = Ret (Product.price r) /\
    nonneg (Product.price r).
Proof.
  intros p r. unfold ProductSchema, sellable, snapshot_price.
  destruct (Doc.name p) as [n | ]; [ | discriminate].
  destruct (Doc.price p) as [v | ]; [ | discriminate].
  destruct (Doc.category p) as [c | ]; [ | discriminate].
  destruct (float_of_number v) as [price | e]; [ | discriminate].
  destruct (PyFloat.ge price PyFloat.zero) eqn:Hge; [ | discriminate].
  destruct (match Doc.rating p with Some _ => _ | None => true end); [ | discriminate].
  cbn. intros [= <-]. cbn. repeat split; try discriminate; eauto.
Qed.

Lemma product_model_sellable_witness :
  sellable (nth 2 sample_products free_sample) /\
  Doc.name (nth 2 sample_products free_sample) = Some "Spicy Chicken Skewers" /\
  snapshot_price (nth 2 sample_products free_sample) = Ret (PyFloat.of_Z 22000) /\
  nonneg (PyFloat.of_Z 22000).
Proof.
  apply (product_model_sellable (nth 2 sample_products free_sample)
           (Product.mk "Spicy Chicken Skewers"
              (Some "Grilled chicken satay with homemade spicy sauce.")
              (PyFloat.of_Z 22000) "Snacks"
              (Some "https://images.unsplash.com/photo-1666001085700-0610a7f0b11d?q=80&w=1200&auto=format&fit=crop")
              (Some "Satay UMKM") (Some (PyFloat.decimal 44 1))
              ["spicy"; "protein"] true)).
  vm_compute. reflexivity.
Defined.

Lemma distinct_values_In (xs : list string) (c : string) :
  In c (distinct_values xs) <-> In c xs.
Proof.
  induction xs as [ | x rest IH]; cbn; [reflexivity | ].
  rewrite filter_In, IH, negb_true_iff, String.eqb_neq.
  destruct (string_dec x c); intuition.
Qed.

Lemma distinct_values_NoDup (xs : list string) : NoDup (distinct_values xs).
Proof.
  induction xs as [ | x rest IH]; cbn; constructor.
  - rewrite filter_In, negb_true_iff, String.eqb_neq. intros [_ H]. now apply H.
  - now apply NoDup_filter.
Qed.

Lemma categories_of_In (ps : list Stored) (c : string) :
  In c (categories_of ps) <->
  exists s, In s ps /\ Doc.category (doc s) = Some c.
Proof.
  unfold categories_of. rewrite in_flat_map. split.
  - intros (s & Hs & Hc). exists s. split; [exact Hs | ].
    destruct (Doc.category (doc s)); cbn in Hc; [ | contradiction].
    destruct Hc as [-> | []]. reflexivity.
  - intros (s & Hs & Hc). exists s. split; [exact Hs | ]. rewrite Hc. now left.
Qed.

(** X19. The categories of a configured store.  When the request returns,
    the catalog it leaves is not empty, and the answer holds each category
    of a stored product, once: a string is in the answer exactly when some
    product of the catalog has it as its category, and no string is there
    twice. *)
Theorem list_categories_exact :
  forall (failure : option string) (w w' : World) (d : Database) (cats : list string),
    db w = Some d ->
    list_categories failure w = (Ret cats, w') ->
    exists d',
      db w' = Some d' /\
      product d' <> [] /\
      NoDup cats /\
      forall c, In c cats <->
                exists s, In s (product d') /\ Doc.category (doc s) = Some c.
Proof.
  intros failure w w' d cats Hdb. unfold list_categories. unfold bind at 1.
  rewrite (db_is_None_configured w d Hdb). unfold bind at 1.
  destruct (seed_products_if_empty w) as [[[] | e] w1] eqn:Hseed; [ | discriminate].
  assert (Hpost : exists d1, db w1 = Some d1 /\ product d1 <> []).
  { destruct (seed_cases w) as [[Hnone _] | (d0 & Hdb0 & Hcases)]; [congruence | ].
    destruct Hcases as [(msg & _ & H) | [(_ & Hne & H)
      | [(msg & _ & _ & _ & H) | (_ & _ & _ & H)]]];
      rewrite H in Hseed; try discriminate;
      apply pair_equal_spec in Hseed; destruct Hseed as [_ <-];
      eexists; (split; [reflexivity | ]); [exact Hne | ].
    cbn [product with_product]. unfold sample_products. cbn [assign_ids]. discriminate. }
  destruct Hpost as (d1 & Hdb1 & Hne).
  unfold bind, ret, distinct_category. rewrite Hdb1.
  destruct failure as [msg | ]; [discriminate | ].
  intros Hpair. apply pair_equal_spec in Hpair. destruct Hpair as [[= <-] <-].
  exists d1. split; [exact Hdb1 | ]. split; [exact Hne | ].
  split; [apply distinct_values_NoDup | ].
  intros c. now rewrite distinct_values_In, categories_of_In.
Qed.

Lemma list_categories_exact_witness :
  exists d',
    db (snd (list_categories None fresh_world)) = Some d' /\
    product d' <> [] /\
    NoDup ["Drinks"; "Snacks"; "Dessert"] /\
    forall c, In c ["Drinks"; "Snacks"; "Dessert"] <->
              exists s, In s (product d') /\ Doc.category (doc s) = Some c.
Proof.
  apply (list_categories_exact None fresh_world
           (snd (list_categories None fresh_world)) empty_database).
  - reflexivity.
  - vm_compute. reflexivity.
Defined.

(** X17. Reading the catalog never touches the orders: after a listing of
    products or of categories, whatever its parameters and its outcome, the
    orders of the world are the ones it found. *)
Theorem catalog_requests_keep_orders :
  forall (category q failure : option string) (w : World),
    orders_of (snd (list_products category q w)) = orders_of w /\
    orders_of (snd (list_categories failure w)) = orders_of w.
Proof.
  intros category q failure w. split; [apply list_products_keeps_orders | ].
  unfold list_categories.
  apply bind_keeps_orders; [reflexivity | ].
  intros [ | ] w0; [reflexivity | ].
  apply bind_keeps_orders; [apply seed_keeps_orders | ].
  intros _ w1. apply bind_keeps_orders; [ | reflexivity].
  intros w2. unfold distinct_category.
  destruct (db w2); [destruct failure | ]; reflexivity.
Qed.

(* ================================================================== *)
(** ** The diagnostic endpoint *)
(* ================================================================== *)

Section HealthFacts.

Import Health.



(** X21. The two environment fields of the diagnostic report depend on the
    environment alone: each is "Set" when its variable holds a non-empty
    string and "Not Set" otherwise.  In particular the name of the
    database, which the handler reads on the way, never reaches the answer:
    the assignments that end the handler overwrite it. *)
Theorem test_database_reports_environment :
  forall (env : Env) (db : option Handle),
    database_url (test_database env db) = Some (set_label (DATABASE_URL env)) /\
    database_name (test_database env db) = Some (set_label (DATABASE_NAME env)) /\
    backend (test_database env db) = backend initial.
Proof.
  intros env [[n [names | e]] | ]; repeat split.
Qed.

(** X22. What the report says of the connection.  It is "Connected"
    exactly when there is a handle, also when the collections could not be
    listed.  The [database] field takes one of three forms: working, when
    the collections were listed; connected with the error of the listing;
    or not initialised, when there is no handle.  The value the response
    starts with, "Not Available", is never returned. *)
Theorem test_database_status :
  forall (env : Env) (db : option Handle),
    (connection_status (test_database env db) = "Connected" <-> db <> None) /\
    database (test_database env db) <> database initial /\
    database (test_database env db) =
      match db with
      | None => "⚠️  Available but not initialized"
      | Some h =>
          match list_collection_names h with
          | Ret _ => "✅ Connected & Working"
          | Raise e => ("⚠️  Connected but Error: " ++ cut e)%string
          end
      end.
Proof.
  intros env [[n [names | e]] | ]; cbn; repeat split;
    try discriminate; try reflexivity; try congruence.
Qed.


(** A message of 81 two-byte characters is quoted up to its 80th
    character, 160 bytes. *)
Example test_database_quotes_characters :
  let message := String.concat "" (repeat "é" 81) in
  let report := test_database {| DATABASE_URL := None; DATABASE_NAME := None |}
                  (Some {| name := None;
                           list_collection_names := Raise (PyMongoError message) |}) in
  database report
  = ("⚠️  Connected but Error: " ++ String.concat "" (repeat "é" 80))%string /\
  String.length message = 162%nat /\
  chars message = 81%nat.
Proof. vm_compute. repeat split. Qed.

End HealthFacts.
